(** * apachehttpmount: a read-only FUSE view of an Apache "Index of" tree

    Shallow embedding of [apachehttpmount.py] (class [Http]) and the
    properties of its listing parser, its path cache and its filesystem
    operations.

    Modelling conventions.
    - A Python [str] and a Python [bytes] are both a [string], i.e. a sequence
      of 8-bit characters: text is covered on the Latin-1 range of code
      points, where the character classes of [re] are written out below.
    - A Python [int] is a [Z]; a Python [float] is a binary64 number, with
      the arithmetic of [SpecFloat] at precision 53.
    - Exceptions are values of type [exn]; a method returns an [outcome].
    - The only shared mutable objects are the cache dictionary and the
      [OrderedDict]s stored in it.  Every [OrderedDict] is created by
      [_parse_listing] and stored in exactly one cache slot, so the in-place
      update of the object returned by [_get] is an update of that slot. *)

From Stdlib Require Import ZArith Ascii String List Bool Lia SpecFloat Sorted.
From stdpp Require Import base option gmap strings list.

Local Open Scope string_scope.
Local Open Scope Z_scope.

(* ===================================================================== *)
(** ** Python string operations used by the program *)
(* ===================================================================== *)

Module PyStr.

Definition len (s : string) : Z := Z.of_nat (String.length s).

(** [s.startswith(p)]: the rest of [s] after [p], when [p] is a prefix. *)
Fixpoint strip_prefix (p s : string) : option string :=
  match p, s with
  | EmptyString, _ => Some s
  | String a p', String b s' =>
      if Ascii.eqb a b then strip_prefix p' s' else None
  | String _ _, EmptyString => None
  end.

Definition startswith (s p : string) : bool :=
  match strip_prefix p s with Some _ => true | None => false end.

Fixpoint rev_string (s : string) : string :=
  match s with
  | EmptyString => EmptyString
  | String c s' => rev_string s' +:+ String c EmptyString
  end.

Definition endswith (s p : string) : bool :=
  startswith (rev_string s) (rev_string p).

(** [s[n:]] and [s[:n]] for [0 <= n]. *)
Fixpoint drop (n : nat) (s : string) : string :=
  match n, s with
  | O, _ => s
  | S n', String _ s' => drop n' s'
  | S _, EmptyString => EmptyString
  end.

Fixpoint take (n : nat) (s : string) : string :=
  match n, s with
  | O, _ => EmptyString
  | S n', String c s' => String c (take n' s')
  | S _, EmptyString => EmptyString
  end.

(** Python's normalisation of a slice bound against a length. *)
Definition clamp (n i : Z) : Z :=
  if i <? 0 then Z.max (i + n) 0 else Z.min i n.

(** [s[a:b]] with Python's treatment of negative and oversized bounds. *)
Definition slice (s : string) (a b : Z) : string :=
  let n := len s in
  let a' := clamp n a in
  let b' := clamp n b in
  if a' <? b' then take (Z.to_nat (b' - a')) (drop (Z.to_nat a') s)
  else EmptyString.

Definition slice_to (s : string) (b : Z) : string := slice s 0 b.
Definition slice_from (s : string) (a : Z) : string := slice s a (len s).

(** [s.find(sub)]: index of the first occurrence, [-1] when there is none. *)
Fixpoint find_from (i : Z) (sub s : string) : Z :=
  if startswith s sub then i
  else match s with
       | EmptyString => -1
       | String _ s' => find_from (i + 1) sub s'
       end.

Definition find (s sub : string) : Z := find_from 0 sub s.

(** [s.count(sub)] for a non-empty [sub]: occurrences that do not overlap,
    scanned from the left.  The fuel is the length of [s]. *)
Fixpoint count_fuel (fuel : nat) (sub s : string) : Z :=
  match fuel with
  | O => 0
  | S fuel' =>
      match strip_prefix sub s with
      | Some rest =>
          match sub with
          | EmptyString => 0
          | String _ _ => 1 + count_fuel fuel' sub rest
          end
      | None =>
          match s with
          | EmptyString => 0
          | String _ s' => count_fuel fuel' sub s'
          end
      end
  end.

Definition count (s sub : string) : Z := count_fuel (String.length s) sub s.

(** [s.rfind(c)] for a single character [c]. *)
Fixpoint rfind_char_from (i : Z) (c : ascii) (s : string) (last : Z) : Z :=
  match s with
  | EmptyString => last
  | String b s' =>
      rfind_char_from (i + 1) c s' (if Ascii.eqb b c then i else last)
  end.

Definition rfind_char (s : string) (c : ascii) : Z :=
  rfind_char_from 0 c s (-1).

(** [s.lstrip(c)] and [s.rstrip(c)] for a single character [c]. *)
Fixpoint lstrip_char (c : ascii) (s : string) : string :=
  match s with
  | String b s' => if Ascii.eqb b c then lstrip_char c s' else s
  | EmptyString => EmptyString
  end.

Fixpoint rstrip_char (c : ascii) (s : string) : string :=
  match s with
  | EmptyString => EmptyString
  | String b s' =>
      match rstrip_char c s' with
      | EmptyString => if Ascii.eqb b c then EmptyString else String b EmptyString
      | r => String b r
      end
  end.

(** [sep * n]. *)
Fixpoint repeat_char (c : ascii) (n : nat) : string :=
  match n with
  | O => EmptyString
  | S n' => String c (repeat_char c n')
  end.

(** Line boundaries of [str.splitlines] on the Latin-1 range:
    LF, VT, FF, CR, FS, GS, RS and NEL; CR LF counts as one boundary. *)
Definition is_linebreak (c : ascii) : bool :=
  let n := N_of_ascii c in
  ((10 <=? n) && (n <=? 13) || (28 <=? n) && (n <=? 30) || (n =? 133))%N.

Definition is_cr (c : ascii) : bool := (N_of_ascii c =? 13)%N.
Definition is_lf (c : ascii) : bool := (N_of_ascii c =? 10)%N.

(** [cur] is the current line, reversed. *)
Fixpoint splitlines_aux (cur : string) (s : string) : list string :=
  match s with
  | EmptyString =>
      match cur with
      | EmptyString => []
      | _ => [rev_string cur]
      end
  | String c s' =>
      if is_linebreak c then
        match s' with
        | String d s'' =>
            if is_cr c && is_lf d
            then rev_string cur :: splitlines_aux EmptyString s''
            else rev_string cur :: splitlines_aux EmptyString s'
        | EmptyString => [rev_string cur]
        end
      else splitlines_aux (String c cur) s'
  end.

Definition splitlines (s : string) : list string :=
  splitlines_aux EmptyString s.

(** [l.index(x)], counted from [i]; [None] stands for [ValueError]. *)
Fixpoint list_index (x : string) (l : list string) (i : Z) : option Z :=
  match l with
  | [] => None
  | y :: l' => if String.eqb x y then Some i else list_index x l' (i + 1)
  end.

End PyStr.

(* ===================================================================== *)
(** ** The fragment of Python's [re] that the program's patterns use *)
(* ===================================================================== *)

Module Re.

(** Character classes of a [str] pattern on the Latin-1 range. *)
Definition is_digit (c : ascii) : bool :=
  let n := N_of_ascii c in ((48 <=? n) && (n <=? 57))%N.

Definition is_latin1_alnum (n : N) : bool :=
  ((n =? 170) || (n =? 178) || (n =? 179) || (n =? 181) || (n =? 185)
   || (n =? 186) || (188 <=? n) && (n <=? 190)
   || (192 <=? n) && (n <=? 214) || (216 <=? n) && (n <=? 246)
   || (248 <=? n) && (n <=? 255))%N.

(** [\w]: alphanumeric characters and the underscore. *)
Definition is_word (c : ascii) : bool :=
  let n := N_of_ascii c in
  ((48 <=? n) && (n <=? 57) || (65 <=? n) && (n <=? 90)
   || (97 <=? n) && (n <=? 122) || (n =? 95) || is_latin1_alnum n)%N.

(** [\s]: white space. *)
Definition is_space (c : ascii) : bool :=
  let n := N_of_ascii c in
  ((9 <=? n) && (n <=? 13) || (28 <=? n) && (n <=? 32)
   || (n =? 133) || (n =? 160))%N.

Definition is_char (a : ascii) (c : ascii) : bool := Ascii.eqb a c.
Definition not_char (a : ascii) (c : ascii) : bool := negb (Ascii.eqb a c).
Definition in_range (lo hi : ascii) (c : ascii) : bool :=
  ((N_of_ascii lo <=? N_of_ascii c) && (N_of_ascii c <=? N_of_ascii hi))%N.

(** ASCII lower-casing, for patterns compiled with [IGNORECASE]. *)
Definition lower (c : ascii) : ascii :=
  let n := N_of_ascii c in
  if ((65 <=? n) && (n <=? 90))%N then ascii_of_N (n + 32) else c.

(** Patterns.  Repetition is over one character class, which is all the
    program's patterns need. *)
Inductive re : Type :=
| Lit (s : string)                 (* literal text *)
| LitI (s : string)                (* literal text, case ignored *)
| Cls (p : ascii -> bool)          (* one character of a class *)
| Plus (p : ascii -> bool)         (* [C+], greedy *)
| Star (p : ascii -> bool)         (* [C*], greedy *)
| Opt (p : ascii -> bool)          (* [C?], greedy *)
| Cat (a b : re)
| Alt (a b : re)
| Group (name : string) (r : re)   (* [(?P<name>...)] *)
| Eos.                             (* [$] without MULTILINE *)

Definition groups := list (string * string).

Fixpoint strip_prefix_nocase (p s : string) : option string :=
  match p, s with
  | EmptyString, _ => Some s
  | String a p', String b s' =>
      if Ascii.eqb (lower a) (lower b) then strip_prefix_nocase p' s' else None
  | String _ _, EmptyString => None
  end.

Section Matcher.
Context {A : Type}.

(** Greedy run of a class: the longest run first, then shorter ones. *)
Fixpoint run (p : ascii -> bool) (k : string -> option A) (s : string)
  : option A :=
  match s with
  | String c s' =>
      if p c then
        match run p k s' with
        | Some x => Some x
        | None => k s
        end
      else k s
  | EmptyString => k s
  end.

(** Backtracking matcher in continuation-passing style: [k] is what is
    left of the pattern, alternatives are tried from left to right, and
    the first overall success is the match. *)
Fixpoint matches (r : re) (s : string) (g : groups)
         (k : string -> groups -> option A) : option A :=
  match r with
  | Lit l =>
      match PyStr.strip_prefix l s with
      | Some s' => k s' g
      | None => None
      end
  | LitI l =>
      match strip_prefix_nocase l s with
      | Some s' => k s' g
      | None => None
      end
  | Cls p =>
      match s with
      | String c s' => if p c then k s' g else None
      | EmptyString => None
      end
  | Plus p =>
      match s with
      | String c s' => if p c then run p (fun s'' => k s'' g) s' else None
      | EmptyString => None
      end
  | Star p => run p (fun s' => k s' g) s
  | Opt p =>
      match s with
      | String c s' =>
          if p c then
            match k s' g with
            | Some x => Some x
            | None => k s g
            end
          else k s g
      | EmptyString => k s g
      end
  | Cat a b => matches a s g (fun s' g' => matches b s' g' k)
  | Alt a b =>
      match matches a s g k with
      | Some x => Some x
      | None => matches b s g k
      end
  | Group name r' =>
      matches r' s g
        (fun s' g' =>
           k s' ((name,
                  PyStr.take (String.length s - String.length s')%nat s)
                 :: g'))
  | Eos =>
      match s with
      | EmptyString => k s g
      | String c EmptyString => if PyStr.is_lf c then k s g else None
      | _ => None
      end
  end.
End Matcher.

(** [re.match(pattern, s)]: a match anchored at the start of [s]; the
    result is the text left after the match and the groups. *)
Definition re_match (r : re) (s : string) : option (string * groups) :=
  matches r s [] (fun s' g => Some (s', g)).

(** [mo.group(name)]. *)
Fixpoint group (g : groups) (name : string) : string :=
  match g with
  | [] => EmptyString
  | (n, v) :: g' => if String.eqb n name then v else group g' name
  end.

Fixpoint cat (rs : list re) : re :=
  match rs with
  | [] => Lit EmptyString
  | [r] => r
  | r :: rs' => Cat r (cat rs')
  end.

Fixpoint alt (r : re) (rs : list re) : re :=
  match rs with
  | [] => r
  | r' :: rs' => Alt r (alt r' rs')
  end.

End Re.

(* ===================================================================== *)
(** ** Exceptions and outcomes *)
(* ===================================================================== *)

(** [errno] constants (Linux values). *)
Module errno.
Definition EPERM : Z := 1.
Definition ENOENT : Z := 2.
Definition EIO : Z := 5.
Definition EACCES : Z := 13.
Definition ENOTDIR : Z := 20.
Definition EISDIR : Z := 21.
Definition EROFS : Z := 30.
End errno.

(** The exceptions the program raises itself or lets escape from the
    built-in operations it uses.  [FuseOSError] is not a subclass of
    [FileNotFoundError], so [except FileNotFoundError] lets it through. *)
Inductive exn : Type :=
| FileNotFoundError (path : string)
| FuseOSError (code : Z)
| AssertionError
| KeyError (key : string)
| TypeError
| ValueError
| IndexError
| OverflowError
| NotImplementedError.

(** What a call does: it returns, it raises, or the bounded recursion of the
    model is exhausted (shown below never to happen for [_get]). *)
Inductive outcome (A : Type) : Type :=
| Return (a : A)
| Raise (e : exn)
| OutOfFuel.

Arguments Return {A} a.
Arguments Raise {A} e.
Arguments OutOfFuel {A}.

(* ===================================================================== *)
(** ** Python floats (binary64) *)
(* ===================================================================== *)

Module PyFloat.

Definition prec : Z := 53.
Definition emax : Z := 1024.

Definition float := spec_float.

Definition add : float -> float -> float := SFadd prec emax.
Definition mul : float -> float -> float := SFmul prec emax.

(** The float nearest to the integer [n] (exact below [2^53]). *)
Definition of_int (n : Z) : float := binary_normalize prec emax n 0 false.

(** A string of decimal digits with at most one point, as the pair
    [(n, k)] standing for [n / 10^k]; [None] when the string has no digit,
    two points or another character. *)
Fixpoint parse_decimal (s : string) (n : Z) (k : option nat) (seen : bool)
  : option (Z * nat) :=
  match s with
  | EmptyString =>
      if seen then Some (n, match k with Some k' => k' | None => O end)
      else None
  | String c s' =>
      if Re.is_digit c then
        parse_decimal s' (10 * n + Z.of_N (N_of_ascii c - 48))
                      (option_map S k) true
      else if Ascii.eqb c "."%char then
        match k with
        | Some _ => None
        | None => parse_decimal s' n (Some O) seen
        end
      else None
  end.

(** The float nearest to [n / 10^k] (ties to even), for [0 <= n]: the
    correctly rounded quotient of the two integers. *)
Definition of_decimal (n : Z) (k : nat) : float :=
  match n with
  | Zpos m =>
      SFdiv prec emax (S754_finite false m 0)
            (S754_finite false (Z.to_pos (10 ^ Z.of_nat k)) 0)
  | _ => S754_zero false
  end.

(** [float(s)] for a string of digits with at most one point. *)
Definition of_string (s : string) : outcome float :=
  match parse_decimal s 0 None false with
  | None => Raise ValueError
  | Some (n, k) => Return (of_decimal n k)
  end.

(** The literal [0.1]. *)
Definition point_one : float := S754_finite false 7205759403792794 (-56).

(** [int(f)]: truncation towards zero. *)
Definition to_int (f : float) : outcome Z :=
  match f with
  | S754_zero _ => Return 0
  | S754_finite s m e => Return (cond_Zopp s (Z.shiftl (Zpos m) e))
  | S754_infinity _ => Raise OverflowError
  | S754_nan => Raise ValueError
  end.

End PyFloat.

(* ===================================================================== *)
(** ** [datetime] *)
(* ===================================================================== *)

Module datetime.

(** A naive [datetime.datetime]. *)
Record t : Type := mk {
  year : Z; month : Z; day : Z; hour : Z; minute : Z; second : Z
}.

Definition is_leap (y : Z) : bool :=
  (y mod 4 =? 0) && (negb (y mod 100 =? 0) || (y mod 400 =? 0)).

Definition days_in_month (y m : Z) : Z :=
  if (m =? 2) && is_leap y then 29
  else nth (Z.to_nat m) [0; 31; 28; 31; 30; 31; 30; 31; 31; 30; 31; 30; 31] 0.

Definition days_before_month (y m : Z) : Z :=
  nth (Z.to_nat m) [0; 0; 31; 59; 90; 120; 151; 181; 212; 243; 273; 304; 334] 0
  + (if (2 <? m) && is_leap y then 1 else 0).

Definition days_before_year (y : Z) : Z :=
  let y' := y - 1 in y' * 365 + y' / 4 - y' / 100 + y' / 400.

(** Proleptic Gregorian ordinal: 1 for 0001-01-01. *)
Definition ymd2ord (y m d : Z) : Z :=
  days_before_year y + days_before_month y m + d.

Definition ord2ymd (n0 : Z) : Z * Z * Z :=
  let n := n0 - 1 in
  let n400 := n / 146097 in
  let n := n mod 146097 in
  let n100 := n / 36524 in
  let n := n mod 36524 in
  let n4 := n / 1461 in
  let n := n mod 1461 in
  let n1 := n / 365 in
  let n := n mod 365 in
  let y := n400 * 400 + 1 + n100 * 100 + n4 * 4 + n1 in
  if (n1 =? 4) || (n100 =? 4) then (y - 1, 12, 31)
  else
    let leapyear := (n1 =? 3) && (negb (n4 =? 24) || (n100 =? 3)) in
    let m := Z.shiftr (n + 50) 5 in
    let preceding :=
      nth (Z.to_nat m) [0; 0; 31; 59; 90; 120; 151; 181; 212; 243; 273; 304; 334] 0
      + (if (2 <? m) && leapyear then 1 else 0) in
    if n <? preceding then
      let m' := m - 1 in
      let preceding' :=
        preceding
        - (nth (Z.to_nat m') [0; 31; 28; 31; 30; 31; 30; 31; 31; 30; 31; 30; 31] 0
           + (if (m' =? 2) && leapyear then 1 else 0)) in
      (y, m', n - preceding' + 1)
    else (y, m, n - preceding + 1).

(** Ordinal of 1970-01-01. *)
Definition epoch_ord : Z := 719163.

(** [datetime.fromtimestamp(ts)] and [dt.timestamp()] for whole seconds.
    Local time is [utcoffset] seconds ahead of UTC (one fixed offset: no
    daylight-saving change is modelled). *)
Definition fromtimestamp (utcoffset ts : Z) : t :=
  let l := ts + utcoffset in
  let '(y, m, d) := ord2ymd (l / 86400 + epoch_ord) in
  let r := l mod 86400 in
  mk y m d (r / 3600) (r mod 3600 / 60) (r mod 60).

Definition timestamp (utcoffset : Z) (dt : t) : Z :=
  (ymd2ord (year dt) (month dt) (day dt) - epoch_ord) * 86400
  + hour dt * 3600 + minute dt * 60 + second dt - utcoffset.

(** The pattern [_strptime] builds for the format ['%d-%b-%Y %H:%M']
    (C locale), compiled with [IGNORECASE]. *)
Definition digit : Re.re := Re.Cls Re.is_digit.
Definition rng (lo hi : ascii) : Re.re := Re.Cls (Re.in_range lo hi).

Definition format_regex : Re.re :=
  Re.cat
    [ Re.Group "d"
        (Re.alt (Re.Cat (Re.Lit "3") (rng "0" "1"))
                [ Re.Cat (rng "1" "2") digit;
                  Re.Cat (Re.Lit "0") (rng "1" "9");
                  rng "1" "9";
                  Re.Cat (Re.Lit " ") (rng "1" "9") ]);
      Re.Lit "-";
      Re.Group "b"
        (Re.alt (Re.LitI "jan")
                (map Re.LitI ["feb"; "mar"; "apr"; "may"; "jun"; "jul";
                              "aug"; "sep"; "oct"; "nov"; "dec"]));
      Re.Lit "-";
      Re.Group "Y" (Re.cat [digit; digit; digit; digit]);
      Re.Plus Re.is_space;
      Re.Group "H"
        (Re.alt (Re.Cat (Re.Lit "2") (rng "0" "3"))
                [ Re.Cat (rng "0" "1") digit; digit ]);
      Re.Lit ":";
      Re.Group "M" (Re.alt (Re.Cat (rng "0" "5") digit) [ digit ]) ].

(** [int(s)] for a string of digits, with a leading blank allowed. *)
Fixpoint int_of_digits (s : string) (acc : Z) : Z :=
  match s with
  | EmptyString => acc
  | String c s' =>
      if Re.is_digit c
      then int_of_digits s' (10 * acc + Z.of_N (N_of_ascii c - 48))
      else int_of_digits s' acc
  end.

Fixpoint lower_string (s : string) : string :=
  match s with
  | EmptyString => EmptyString
  | String c s' => String (Re.lower c) (lower_string s')
  end.

Definition month_of (b : string) : Z :=
  match PyStr.list_index (lower_string b)
          ["jan"; "feb"; "mar"; "apr"; "may"; "jun"; "jul";
           "aug"; "sep"; "oct"; "nov"; "dec"] 1 with
  | Some m => m
  | None => 0
  end.

(** [datetime.strptime(s, '%d-%b-%Y %H:%M')]: [ValueError] when the
    pattern does not match, when text is left over, or when the date does
    not exist. *)
Definition strptime (s : string) : outcome t :=
  match Re.re_match format_regex s with
  | None => Raise ValueError
  | Some (rest, g) =>
      match rest with
      | String _ _ => Raise ValueError
      | EmptyString =>
          let y := int_of_digits (Re.group g "Y") 0 in
          let m := month_of (Re.group g "b") in
          let d := int_of_digits (Re.group g "d") 0 in
          if (1 <=? y) && (1 <=? d) && (d <=? days_in_month y m)
          then Return (mk y m d (int_of_digits (Re.group g "H") 0)
                          (int_of_digits (Re.group g "M") 0) 0)
          else Raise ValueError
      end
  end.

End datetime.

(* ===================================================================== *)
(** ** [os.path] (posixpath) *)
(* ===================================================================== *)

Module os_path.

Definition sep : ascii := "/"%char.

(** [os.path.dirname(p)]. *)
Definition dirname (p : string) : string :=
  let i := PyStr.rfind_char p sep + 1 in
  let head := PyStr.slice_to p i in
  match head with
  | EmptyString => head
  | _ =>
      if String.eqb head (PyStr.repeat_char sep (String.length head))
      then head
      else PyStr.rstrip_char sep head
  end.

(** [os.path.basename(p)]. *)
Definition basename (p : string) : string :=
  let i := PyStr.rfind_char p sep + 1 in
  PyStr.slice_from p i.

(** [os.path.join(a, b)]. *)
Definition join (a b : string) : string :=
  if PyStr.startswith b "/" then b
  else if String.eqb a "" || PyStr.endswith a "/" then a +:+ b
  else a +:+ "/" +:+ b.

End os_path.


(* ===================================================================== *)
(** ** Data of the program *)
(* ===================================================================== *)

(** The double quote and the line feed, for the literals that contain them. *)
Definition dquote : ascii := "034"%char.
Definition dq : string := String dquote EmptyString.
Definition nl : string := String "010"%char EmptyString.

(** The signature an Apache listing starts with. *)
Definition LISTING : string :=
  "<!DOCTYPE HTML PUBLIC " +:+ dq +:+ "-//W3C//DTD HTML 3.2 Final//EN" +:+ dq
  +:+ ">" +:+ nl +:+ "<html>" +:+ nl +:+ " <head>" +:+ nl
  +:+ "  <title>Index of ".

(** A directory entry, the tuple [(icon, size, mtime)]. *)
Definition dent : Type := string * Z * datetime.t.

(** [collections.OrderedDict] from names to entries: an association list in
    insertion order, with at most one binding per key. *)
Definition OrderedDict : Type := list (string * dent).

(** [d[k]] ([None] stands for [KeyError]). *)
Fixpoint od_get (d : OrderedDict) (k : string) : option dent :=
  match d with
  | [] => None
  | (k', v) :: d' => if String.eqb k' k then Some v else od_get d' k
  end.

(** [d[k] = v]: an existing key keeps its position, a new key goes last. *)
Fixpoint od_set (d : OrderedDict) (k : string) (v : dent) : OrderedDict :=
  match d with
  | [] => [(k, v)]
  | (k', v') :: d' =>
      if String.eqb k' k then (k', v) :: d' else (k', v') :: od_set d' k v
  end.

(** [list(d.keys())]. *)
Definition od_keys (d : OrderedDict) : list string := map fst d.

(** What a cache slot holds: [None] for a path known to be missing, an
    [OrderedDict] for a listing, [bytes] for a file body. *)
Inductive value : Type :=
| VNone
| VOrderedDict (d : OrderedDict)
| VBytes (b : string).

(** [isinstance(v, collections.OrderedDict)]. *)
Definition is_OrderedDict (v : value) : bool :=
  match v with VOrderedDict _ => true | _ => false end.

(** What [requests.get] returns, as far as the program reads it. *)
Record response : Type := mk_response {
  status_code : Z;
  content : string;   (* the body, as bytes *)
  text : string       (* the body, decoded *)
}.

(** The object [self]: the cache, the handle counter, and (ghost) the paths
    for which a GET was issued so far, oldest first. *)
Record state : Type := mk_state {
  _cache : gmap string value;
  fd : Z;
  gets : list string
}.

Definition set_cache (self : state) (path : string) (v : value) : state :=
  mk_state (<[path := v]> (_cache self)) (fd self) (gets self).

Definition log_get (self : state) (path : string) : state :=
  mk_state (_cache self) (fd self) (gets self ++ [path]).

Definition set_fd (self : state) (n : Z) : state :=
  mk_state (_cache self) n (gets self).

(** The dictionary [getattr] returns. *)
Record stat_result : Type := mk_stat {
  st_atime : Z; st_ctime : Z; st_gid : Z; st_mode : Z;
  st_mtime : Z; st_nlink : Z; st_size : Z; st_uid : Z
}.

Module os.
Definition X_OK : Z := 1.
Definition W_OK : Z := 2.
Definition O_RDONLY : Z := 0.
End os.

Module stat.
Definition S_IFDIR : Z := 16384.   (* 0o040000 *)
Definition S_IFREG : Z := 32768.   (* 0o100000 *)
End stat.

(* ===================================================================== *)
(** ** [Http._parse_listing] *)
(* ===================================================================== *)

(** The pattern of an entry line.  The leading [^] holds by construction,
    [re.match] being anchored at the start. *)
Definition pattern : Re.re :=
  Re.cat
    [ Re.Lit ("<img src=" +:+ dq);
      Re.Plus (Re.not_char dquote);
      Re.Lit (dq +:+ " alt=" +:+ dq +:+ "[");
      Re.Group "icon" (Re.Plus (Re.not_char dquote));
      Re.Lit ("]" +:+ dq +:+ "> <a href=" +:+ dq);
      Re.Group "url" (Re.Plus (Re.not_char dquote));
      Re.Lit (dq +:+ ">");
      Re.Group "name" (Re.Plus (Re.not_char "<"%char));
      Re.Lit "</a>";
      Re.Star Re.is_space;
      Re.Group "date"
        (Re.cat [ Re.Plus Re.is_digit; Re.Lit "-"; Re.Plus Re.is_word;
                  Re.Lit "-"; Re.Plus Re.is_digit ]);
      Re.Plus Re.is_space;
      Re.Group "time"
        (Re.cat [ Re.Plus Re.is_digit; Re.Lit ":"; Re.Plus Re.is_digit ]);
      Re.Plus Re.is_space;
      Re.Group "size"
        (Re.Alt (Re.Plus (fun c => Re.is_digit c || Re.is_char "."%char c))
                (Re.Lit "-"));
      Re.Group "sizeunit" (Re.Opt Re.is_word);
      Re.Star Re.is_space;
      Re.Eos ].

(** [sizes = [''] + list('KMGTP')]. *)
Definition sizes : list string := [""; "K"; "M"; "G"; "T"; "P"].

(** [0 if str_size == '-' else
     int((0.1 + float(str_size)) * 2 ** (10*sizes.index(str_sizeunit)))]. *)
Definition decode_size (str_size str_sizeunit : string) : outcome Z :=
  if String.eqb str_size "-" then Return 0
  else
    match PyFloat.of_string str_size with
    | Return f =>
        match PyStr.list_index str_sizeunit sizes 0 with
        | Some i =>
            PyFloat.to_int
              (PyFloat.mul (PyFloat.add PyFloat.point_one f)
                           (PyFloat.of_int (2 ^ (10 * i))))
        | None => Raise ValueError
        end
    | Raise e => Raise e
    | OutOfFuel => OutOfFuel
    end.

(** The body of the loop over the entry lines: the key and the tuple stored
    for one line. *)
Definition parse_entry (str_entry : string) : outcome (string * dent) :=
  match Re.re_match pattern str_entry with
  | None => Raise AssertionError
  | Some (_, mo) =>
      let icon := Re.group mo "icon" in
      let url := Re.group mo "url" in
      let name := Re.group mo "name" in
      if negb (String.eqb url name) then Raise AssertionError
      else
        let isdir := PyStr.endswith name "/" in
        let name := PyStr.rstrip_char "/"%char name in
        if negb (Bool.eqb isdir (String.eqb icon "DIR")) then Raise AssertionError
        else
          match datetime.strptime
                  (Re.group mo "date" +:+ " " +:+ Re.group mo "time") with
          | Return mtime =>
              match decode_size (Re.group mo "size") (Re.group mo "sizeunit") with
              | Return size => Return (name, (icon, size, mtime))
              | Raise e => Raise e
              | OutOfFuel => OutOfFuel
              end
          | Raise e => Raise e
          | OutOfFuel => OutOfFuel
          end
  end.

(** The loop [for str_entry in entries], from the dictionary built so far. *)
Fixpoint parse_entries (entries : list string) (result : OrderedDict)
  : outcome OrderedDict :=
  match entries with
  | [] => Return result
  | str_entry :: rest =>
      match parse_entry str_entry with
      | Return (name, v) => parse_entries rest (od_set result name v)
      | Raise e => Raise e
      | OutOfFuel => OutOfFuel
      end
  end.

(** [lines[1:-1]]. *)
Definition entry_lines (lines : list string) : list string :=
  removelast (tl lines).

(** [text[text.index(start)+len(start):text.index(end)].splitlines()]. *)
Definition listing_lines (text : string) : list string :=
  PyStr.splitlines
    (PyStr.slice text (PyStr.find text "<pre>" + PyStr.len "<pre>")
                 (PyStr.find text "</pre>")).

Definition _parse_listing (text : string) : outcome OrderedDict :=
  if negb ((PyStr.count text "<pre>" =? 1) && (PyStr.count text "</pre>" =? 1))
  then Raise AssertionError
  else
    let lines := listing_lines text in
    match lines with
    | [] => Raise IndexError
    | header :: _ =>
        if negb ((PyStr.count header "Name" =? 1)
                 && (PyStr.count header "Last modified" =? 1))
        then Raise AssertionError
        else if negb (String.eqb (List.last lines EmptyString) "<hr>")
        then Raise AssertionError
        else parse_entries (entry_lines lines) []
    end.

(** The visible text of the anchor of an entry line, and the key the parser
    stores the line under. *)
Definition anchor_text (line : string) : string :=
  match Re.re_match pattern line with
  | Some (_, mo) => Re.group mo "name"
  | None => EmptyString
  end.

Definition entry_name (line : string) : string :=
  PyStr.rstrip_char "/"%char (anchor_text line).

(** [floor((n / 10^k + 0.1) * 1024 ^ rank)] in exact arithmetic. *)
Definition exact_size (n : Z) (k : nat) (rank : Z) : Z :=
  (10 * n + 10 ^ Z.of_nat k) * 1024 ^ rank / (10 * 10 ^ Z.of_nat k).

(** The numbers of the size column as Apache formats them: a whole number
    below 1024, or a number below 10 with one decimal. *)
Definition printed_size (n : Z) (k : nat) : bool :=
  match k with
  | O => (0 <=? n) && (n <? 1024)
  | S O => (0 <=? n) && (n <? 100)
  | _ => false
  end.

(** [decode_size] agrees with [exact_size] at [n / 10^k] and [rank]. *)
Definition size_is_exact (rank : Z) (k : nat) (n : Z) : bool :=
  match PyFloat.to_int
          (PyFloat.mul (PyFloat.add PyFloat.point_one (PyFloat.of_decimal n k))
                       (PyFloat.of_int (2 ^ (10 * rank)))) with
  | Return size => size =? exact_size n k rank
  | _ => false
  end.

(** The integers [0, 1, ..., len - 1]. *)
Definition upto (len : nat) : list Z := map Z.of_nat (seq 0 len).

(** The size as the specification words it, to compare with [decode_size]:
    [floor(0.1 + raw_number) * 1024 ^ rank], in exact arithmetic, and 0 for
    a dash. *)
Definition claimed_size (str_size str_sizeunit : string) : option Z :=
  if String.eqb str_size "-" then Some 0
  else
    match PyFloat.parse_decimal str_size 0 None false,
          PyStr.list_index str_sizeunit sizes 0 with
    | Some (n, k), Some rank =>
        Some ((10 ^ Z.of_nat k + 10 * n) / (10 * 10 ^ Z.of_nat k) * 1024 ^ rank)
    | _, _ => None
    end.

(* ===================================================================== *)
(** ** Sample listings, servers and states *)
(* ===================================================================== *)

(** An entry line as Apache writes it. *)
Definition sample_line (icon name date size : string) : string :=
  "<img src=" +:+ dq +:+ "/icons/unknown.gif" +:+ dq +:+ " alt=" +:+ dq
  +:+ "[" +:+ icon +:+ "]" +:+ dq +:+ "> <a href=" +:+ dq +:+ name +:+ dq
  +:+ ">" +:+ name +:+ "</a>" +:+ "          " +:+ date +:+ "  " +:+ size.

(** A listing page with the given entry lines. *)
Definition sample_page (lines : list string) : string :=
  LISTING +:+ "/</title>" +:+ nl +:+ " </head>" +:+ nl +:+ " <body>" +:+ nl
  +:+ "<h1>Index of /</h1>" +:+ nl
  +:+ "<pre>" +:+ "<img src=" +:+ dq +:+ "/icons/blank.gif" +:+ dq
  +:+ " alt=" +:+ dq +:+ "Icon " +:+ dq
  +:+ "> Name          Last modified      Size  Description" +:+ nl
  +:+ fold_right (fun l acc => l +:+ nl +:+ acc) EmptyString lines
  +:+ "<hr>" +:+ "</pre>" +:+ nl +:+ "</body></html>" +:+ nl.

Definition line_sub : string := sample_line "DIR" "sub/" "12-Feb-2015 10:31" "-".
Definition line_a_txt : string :=
  sample_line "TXT" "a.txt" "13-Feb-2015 09:05" "10K".
Definition line_b_bin : string :=
  sample_line "   " "b.bin" "14-Feb-2015 23:59" "1.5M".

(** A directory with a subdirectory and two files. *)
Definition sample_listing : string :=
  sample_page [line_sub; line_a_txt; line_b_bin].

(** A page the parser accepts in which two anchors, [a/] and [a], give the
    same name. *)
Definition colliding_listing : string :=
  sample_page [ sample_line "DIR" "a/" "12-Feb-2015 10:31" "-";
                sample_line "TXT" "a" "13-Feb-2015 09:05" "7" ].

Definition sample_root : string := "http://h/".

Definition not_found : response := mk_response 404 EmptyString EmptyString.

(** A server with the sample directory at its root and the 5-byte file
    [a.txt] in it. *)
Definition server_tree (history : list string) (url : string) : response :=
  if String.eqb url "http://h/" then mk_response 200 sample_listing sample_listing
  else if String.eqb url "http://h/a.txt" then mk_response 200 "hello" "hello"
  else not_found.

(** A server that answers every request with status 500. *)
Definition server_500 (history : list string) (url : string) : response :=
  mk_response 500 EmptyString EmptyString.

(** A server whose root is a plain file. *)
Definition server_rootfile (history : list string) (url : string) : response :=
  if String.eqb url "http://h/" then mk_response 200 "hello" "hello"
  else not_found.

(** The state of a fresh [Http] object. *)
Definition st_empty : state := mk_state ∅ 0 [].

Definition dt_sub : datetime.t := datetime.mk 2015 2 12 10 31 0.
Definition dt_a_txt : datetime.t := datetime.mk 2015 2 13 9 5 0.
Definition dt_b_bin : datetime.t := datetime.mk 2015 2 14 23 59 0.

(** The sample directory as the parser returns it. *)
Definition sample_dict : OrderedDict :=
  [ ("sub", ("DIR", 0, dt_sub));
    ("a.txt", ("TXT", 10342, dt_a_txt));
    ("b.bin", ("   ", 1677721, dt_b_bin)) ].

(** States in which the root listing, or the file [/a.txt], is cached. *)
Definition st_root : state :=
  mk_state {[ "/" := VOrderedDict sample_dict ]} 0 ["/"].

Definition st_file : state :=
  mk_state {[ "/a.txt" := VBytes "hello" ]} 0 [].

(* ===================================================================== *)
(** ** Predicates and relations used in the statements *)
(* ===================================================================== *)

(** The last character of [s] is [c]. *)
Fixpoint last_is (c : ascii) (s : string) : bool :=
  match s with
  | EmptyString => false
  | String b EmptyString => Ascii.eqb b c
  | String _ s' => last_is c s'
  end.

(** [e'] is [e] with, possibly, another size. *)
Definition dent_patch (e e' : string * dent) : Prop :=
  match e, e' with
  | (k, (icon, _, mtime)), (k', (icon', _, mtime')) =>
      k = k' /\ icon = icon' /\ mtime = mtime'
  end.

(** What may become of a cache slot: [None] and [bytes] stay as they are,
    a listing keeps its names, icons and times, in the same order. *)
Definition value_evolves (v v' : value) : Prop :=
  match v, v' with
  | VNone, VNone => True
  | VBytes b, VBytes b' => b = b'
  | VOrderedDict d, VOrderedDict d' => Forall2 dent_patch d d'
  | _, _ => False
  end.

(** [self'] is a later state of [self]: every populated slot is still
    populated, with a value it may have evolved into, and no further GET
    was issued for its path. *)
Definition extends (self self' : state) : Prop :=
  forall q v, _cache self !! q = Some v ->
    (exists v', _cache self' !! q = Some v' /\ value_evolves v v')
    /\ count_occ string_dec (gets self') q = count_occ string_dec (gets self) q.

(* ===================================================================== *)
(** ** The class [Http] *)
(* ===================================================================== *)

Section Http.

(** [self.root], and the ids of the user [nobody]. *)
Variable root : string.
Variables uid gid : Z.

(** Offset of local time from UTC, in seconds. *)
Variable utcoffset : Z.

(** The HTTP server, seen through [requests.get]: the response to a URL,
    which may depend on the URLs requested before. *)
Variable server : list string -> string -> response.

(** [Http._full_path]. *)
Definition _full_path (partial : string) : string :=
  os_path.join root (PyStr.lstrip_char "/"%char partial).

(** [return self._cache[path]]. *)
Definition cache_lookup (self : state) (path : string) : outcome value * state :=
  match _cache self !! path with
  | Some v => (Return v, self)
  | None => (Raise (KeyError path), self)
  end.

(** [Http._get].  The recursion on the parent is bounded by [fuel];
    [_get] below supplies enough of it. *)
Fixpoint _get_fuel (fuel : nat) (path : string) (self : state)
  : outcome value * state :=
  match fuel with
  | O => (OutOfFuel, self)
  | S fuel' =>
      match _cache self !! path with
      | Some VNone => (Raise (FileNotFoundError path), self)
      | Some result => (Return result, self)
      | None =>
          let full_path := _full_path path in
          let response := server (map _full_path (gets self)) full_path in
          let self := log_get self path in
          if status_code response =? 404 then
            (Raise (FileNotFoundError path), set_cache self path VNone)
          else if negb (status_code response =? 200) then
            (Raise (FuseOSError errno.EIO), self)
          else if PyStr.startswith (content response) LISTING then
            match _parse_listing (text response) with
            | Return d => cache_lookup (set_cache self path (VOrderedDict d)) path
            | Raise e => (Raise e, self)
            | OutOfFuel => (OutOfFuel, self)
            end
          else
            let self := set_cache self path (VBytes (content response)) in
            match _get_fuel fuel' (os_path.dirname path) self with
            | (Return pardir, self) =>
                let basename := os_path.basename path in
                match pardir with
                | VOrderedDict d =>
                    match od_get d basename with
                    | Some (icon, size_, mtime_dt) =>
                        cache_lookup
                          (set_cache self (os_path.dirname path)
                             (VOrderedDict
                                (od_set d basename
                                   (icon, PyStr.len (content response), mtime_dt))))
                          path
                    | None => (Raise (KeyError basename), self)
                    end
                | VBytes _ => (Raise TypeError, self)
                | VNone => (Raise TypeError, self)
                end
            | (Raise e, self) => (Raise e, self)
            | (OutOfFuel, self) => (OutOfFuel, self)
            end
      end
  end.

Definition _get (path : string) (self : state) : outcome value * state :=
  _get_fuel (String.length path + 2) path self.

(** [Http._getdent]. *)
Definition _getdent (path : string) (self : state) : outcome dent * state :=
  if String.eqb path "/" then
    (Return ("DIR", 0, datetime.fromtimestamp utcoffset 0), self)
  else
    let dirname := os_path.dirname path in
    match _get dirname self with
    | (Raise (FileNotFoundError _), self) =>
        (Raise (FuseOSError errno.ENOENT), self)
    | (Raise e, self) => (Raise e, self)
    | (OutOfFuel, self) => (OutOfFuel, self)
    | (Return dir, self) =>
        match dir with
        | VOrderedDict d =>
            match od_get d (os_path.basename path) with
            | Some e => (Return e, self)
            | None => (Raise (FileNotFoundError path), self)
            end
        | _ => (Raise (FuseOSError errno.ENOENT), self)
        end
    end.

(** [Http.access].  The decorator [trace] re-raises what the method raises
    and returns what it returns, so the methods are modelled without it. *)
Definition access (path : string) (mode : Z) (self : state)
  : outcome unit * state :=
  if negb (Z.land mode os.W_OK =? 0) then
    (Raise (FuseOSError errno.EROFS), self)
  else
    match _getdent path self with
    | (Raise (FileNotFoundError _), self) =>
        (Raise (FuseOSError errno.ENOENT), self)
    | (Raise e, self) => (Raise e, self)
    | (OutOfFuel, self) => (OutOfFuel, self)
    | (Return (icon, size, mtime_dt), self) =>
        if negb (Z.land mode os.X_OK =? 0) && negb (String.eqb icon "DIR")
        then (Raise (FuseOSError errno.EACCES), self)
        else (Return tt, self)
    end.

(** [Http.getattr]. *)
Definition getattr (path : string) (self : state)
  : outcome stat_result * state :=
  match _getdent path self with
  | (Raise (FileNotFoundError _), self) =>
      (Raise (FuseOSError errno.ENOENT), self)
  | (Raise e, self) => (Raise e, self)
  | (OutOfFuel, self) => (OutOfFuel, self)
  | (Return (icon, size, mtime_dt), self) =>
      let mtime := datetime.timestamp utcoffset mtime_dt in
      let mode := if String.eqb icon "DIR" then 365 (* 0o555 *)
                  else 292 (* 0o444 *) in
      let mode := if String.eqb icon "DIR" then Z.lor mode stat.S_IFDIR
                  else Z.lor mode stat.S_IFREG in
      (Return {| st_atime := mtime; st_ctime := mtime; st_gid := gid;
                 st_mode := mode; st_mtime := mtime;
                 st_nlink := 1 + (if String.eqb icon "DIR" then 1 else 0);
                 st_size := size; st_uid := uid |},
       self)
  end.

(** [Http.readdir]. *)
Definition readdir (path : string) (self : state)
  : outcome (list string) * state :=
  match _get path self with
  | (Return entry, self) =>
      match entry with
      | VOrderedDict d => (Return ("." :: ".." :: od_keys d), self)
      | _ => (Raise (FuseOSError errno.ENOTDIR), self)
      end
  | (Raise e, self) => (Raise e, self)
  | (OutOfFuel, self) => (OutOfFuel, self)
  end.

Definition O_LARGEFILE : Z := 32768.   (* 0o100000 *)

(** [Http.open]. *)
Definition open (path : string) (flags : Z) (self : state)
  : outcome Z * state :=
  let flags := Z.land flags (Z.lnot O_LARGEFILE) in
  if negb (flags =? os.O_RDONLY) then (Raise (FuseOSError errno.EROFS), self)
  else
    match _get path self with
    | (Raise (FileNotFoundError _), self) =>
        (Raise (FuseOSError errno.ENOENT), self)
    | (Raise e, self) => (Raise e, self)
    | (OutOfFuel, self) => (OutOfFuel, self)
    | (Return result, self) =>
        if is_OrderedDict result then (Raise (FuseOSError errno.EISDIR), self)
        else
          let self := set_fd self (fd self + 1) in
          (Return (fd self), self)
    end.

(** [Http.read].  A slice of [bytes] is [bytes]; subscripting an
    [OrderedDict] with a slice raises [TypeError] (a slice is not hashable;
    since Python 3.12 it is, and the lookup raises [KeyError] instead). *)
Definition read (path : string) (length offset : Z) (self : state)
  : outcome string * state :=
  match _get path self with
  | (Return result, self) =>
      match result with
      | VBytes b => (Return (PyStr.slice b offset (offset + length)), self)
      | VOrderedDict _ => (Raise TypeError, self)
      | VNone => (Raise TypeError, self)
      end
  | (Raise e, self) => (Raise e, self)
  | (OutOfFuel, self) => (OutOfFuel, self)
  end.

(** One call of the dispatcher, and what it gives back. *)
Inductive op : Type :=
| OpAccess (path : string) (mode : Z)
| OpGetattr (path : string)
| OpReaddir (path : string)
| OpOpen (path : string) (flags : Z)
| OpRead (path : string) (length offset : Z).

Definition run_op (o : op) (self : state) : state :=
  match o with
  | OpAccess p m => snd (access p m self)
  | OpGetattr p => snd (getattr p self)
  | OpReaddir p => snd (readdir p self)
  | OpOpen p f => snd (open p f self)
  | OpRead p l off => snd (read p l off self)
  end.

(** The state after a sequence of calls, one after the other. *)
Definition run_ops (ops : list op) (self : state) : state :=
  fold_left (fun s o => run_op o s) ops self.

(** A sample sequence of calls. *)
Definition sample_ops : list op :=
  [ OpGetattr "/a.txt"; OpRead "/a.txt" 5 0; OpReaddir "/";
    OpOpen "/a.txt" 0; OpAccess "/sub" 1 ].


(* ===================================================================== *)
(** ** The remaining operations of [Http] *)
(* ===================================================================== *)

(** The dictionary [statfs] returns. *)
Record statvfs : Type := mk_statvfs {
  f_bsize : Z; f_frsize : Z; f_blocks : Z; f_bfree : Z; f_bavail : Z;
  f_files : Z; f_ffree : Z; f_favail : Z; f_flag : Z; f_namemax : Z
}.

(** [Http.chmod], [Http.chown]. *)
Definition chmod (path : string) (mode : Z) (self : state)
  : outcome unit * state := (Raise (FuseOSError errno.EROFS), self).

Definition chown (path : string) (uid' gid' : Z) (self : state)
  : outcome unit * state := (Raise (FuseOSError errno.EROFS), self).

(** [Http.readlink]. *)
Definition readlink (path : string) (self : state)
  : outcome string * state := (Raise NotImplementedError, self).

(** [Http.mknod], [Http.rmdir], [Http.mkdir]. *)
Definition mknod (path : string) (mode dev : Z) (self : state)
  : outcome unit * state := (Raise (FuseOSError errno.EPERM), self).

Definition rmdir (path : string) (self : state)
  : outcome unit * state := (Raise (FuseOSError errno.EROFS), self).

Definition mkdir (path : string) (mode : Z) (self : state)
  : outcome unit * state := (Raise (FuseOSError errno.EROFS), self).

(** [Http.statfs]. *)
Definition statfs (path : string) (self : state)
  : outcome statvfs * state :=
  (Return {| f_bsize := 4096; f_frsize := 4096; f_blocks := 4114392;
             f_bfree := 4114392; f_bavail := 4114392; f_files := 4114392;
             f_ffree := 4113860; f_favail := 4113860; f_flag := 4098;
             f_namemax := 255 |},
   self).

(** [Http.unlink], [Http.symlink], [Http.rename], [Http.link],
    [Http.utimens]. *)
Definition unlink (path : string) (self : state)
  : outcome unit * state := (Raise (FuseOSError errno.EROFS), self).

Definition symlink (name target : string) (self : state)
  : outcome unit * state := (Raise (FuseOSError errno.EROFS), self).

Definition rename (old new : string) (self : state)
  : outcome unit * state := (Raise (FuseOSError errno.EROFS), self).

Definition link (target name : string) (self : state)
  : outcome unit * state := (Raise (FuseOSError errno.EROFS), self).

Definition utimens (path : string) (self : state)
  : outcome unit * state := (Raise (FuseOSError errno.EROFS), self).

(** [Http.create], [Http.write], [Http.truncate]. *)
Definition create (path : string) (mode : Z) (self : state)
  : outcome Z * state := (Raise (FuseOSError errno.EROFS), self).

Definition write (path : string) (buf : string) (offset : Z) (self : state)
  : outcome Z * state := (Raise (FuseOSError errno.EROFS), self).

Definition truncate (path : string) (length : Z) (self : state)
  : outcome unit * state := (Raise (FuseOSError errno.EROFS), self).

(** [Http.flush], [Http.release], [Http.fsync]. *)
Definition flush (path : string) (self : state)
  : outcome unit * state := (Return tt, self).

Definition release (path : string) (self : state)
  : outcome unit * state := (Return tt, self).

Definition fsync (path : string) (fdatasync : Z) (self : state)
  : outcome unit * state := (Return tt, self).

(** A call of any method of the class. *)
Inductive call : Type :=
| CAccess (path : string) (mode : Z)
| CChmod (path : string) (mode : Z)
| CChown (path : string) (uid' gid' : Z)
| CGetattr (path : string)
| CReaddir (path : string)
| CReadlink (path : string)
| CMknod (path : string) (mode dev : Z)
| CRmdir (path : string)
| CMkdir (path : string) (mode : Z)
| CStatfs (path : string)
| CUnlink (path : string)
| CSymlink (name target : string)
| CRename (old new : string)
| CLink (target name : string)
| CUtimens (path : string)
| COpen (path : string) (flags : Z)
| CCreate (path : string) (mode : Z)
| CRead (path : string) (length offset : Z)
| CWrite (path : string) (buf : string) (offset : Z)
| CTruncate (path : string) (length : Z)
| CFlush (path : string)
| CRelease (path : string)
| CFsync (path : string) (fdatasync : Z).

(** The state a call leaves. *)
Definition run_call (c : call) (self : state) : state :=
  match c with
  | CAccess p m => snd (access p m self)
  | CChmod p m => snd (chmod p m self)
  | CChown p u g => snd (chown p u g self)
  | CGetattr p => snd (getattr p self)
  | CReaddir p => snd (readdir p self)
  | CReadlink p => snd (readlink p self)
  | CMknod p m d => snd (mknod p m d self)
  | CRmdir p => snd (rmdir p self)
  | CMkdir p m => snd (mkdir p m self)
  | CStatfs p => snd (statfs p self)
  | CUnlink p => snd (unlink p self)
  | CSymlink n t => snd (symlink n t self)
  | CRename o n => snd (rename o n self)
  | CLink t n => snd (link t n self)
  | CUtimens p => snd (utimens p self)
  | COpen p f => snd (open p f self)
  | CCreate p m => snd (create p m self)
  | CRead p l off => snd (read p l off self)
  | CWrite p b off => snd (write p b off self)
  | CTruncate p l => snd (truncate p l self)
  | CFlush p => snd (flush p self)
  | CRelease p => snd (release p self)
  | CFsync p d => snd (fsync p d self)
  end.

(** The state after a sequence of calls. *)
Definition run_calls (cs : list call) (self : state) : state :=
  fold_left (fun s c => run_call c s) cs self.



(** The path and its parents, nearest first: [p], [dirname p], ... *)
Fixpoint lineage (n : nat) (p : string) : list string :=
  match n with
  | O => []
  | S n' => p :: lineage n' (os_path.dirname p)
  end.

(** The sign of a float is positive, when it has one. *)
Definition float_nonneg (f : PyFloat.float) : bool :=
  match f with
  | S754_zero s | S754_infinity s | S754_finite s _ _ => negb s
  | S754_nan => true
  end.

(** The exceptions of the parser. *)
Definition parser_exn (e : exn) : Prop :=
  e = AssertionError \/ e = IndexError \/ e = ValueError \/ e = OverflowError.

(** The sizes of the entries of a listing are not negative. *)
Definition od_sizes_nonneg (d : OrderedDict) : Prop :=
  Forall (fun e : string * dent => 0 <= snd (fst (snd e))) d.

(** The same of every listing in the cache. *)
Definition sizes_nonneg (self : state) : Prop :=
  forall q d, _cache self !! q = Some (VOrderedDict d) -> od_sizes_nonneg d.

(** [result[name] = v] for each pair in turn, as the loop of the parser
    does. *)
Definition od_set_all (es : list (string * dent)) (acc : OrderedDict)
  : OrderedDict :=
  fold_left (fun d e => od_set d (fst e) (snd e)) es acc.

(** A page with the signature of a listing and no [<pre>] block, and a
    server that answers every request with it. *)
Definition malformed_page : string := LISTING +:+ "/</title>".

Definition server_malformed (history : list string) (url : string) : response :=
  mk_response 200 malformed_page malformed_page.

(** A sample sequence of calls of all kinds. *)
Definition sample_calls : list call :=
  [ CGetattr "/a.txt"; COpen "/a.txt" 0; CRead "/a.txt" 5 0;
    CWrite "/a.txt" "bye" 0; CTruncate "/a.txt" 0; CUnlink "/a.txt";
    CRename "/a.txt" "/b.txt"; CMkdir "/new" 493; CReaddir "/";
    CRelease "/a.txt" ].

(* ===================================================================== *)
(** ** Facts about strings and paths *)
(* ===================================================================== *)

Lemma length_take n s : String.length (PyStr.take n s) = Nat.min n (String.length s).
Proof.
  revert s; induction n as [|n IH]; intros [|c s]; simpl; auto.
Qed.

Lemma take_all n s : (String.length s <= n)%nat -> PyStr.take n s = s.
Proof.
  revert s; induction n as [|n IH]; intros [|c s]; simpl; intros H; auto; try lia.
  f_equal. apply IH. lia.
Qed.

Lemma slice_to_take (s : string) (i : Z) :
  0 <= i -> PyStr.slice_to s i = PyStr.take (Z.to_nat i) s.
Proof.
  intros Hi. unfold PyStr.slice_to, PyStr.slice, PyStr.clamp, PyStr.len. simpl.
  assert (H0 : (0 <? 0) = false) by reflexivity.
  destruct (Z.ltb_spec i 0); [lia|].
  destruct (Z.ltb_spec (Z.min 0 (Z.of_nat (String.length s)))
                       (Z.min i (Z.of_nat (String.length s)))) as [Hlt|Hge].
  - replace (Z.min 0 (Z.of_nat (String.length s))) with 0 in * by lia.
    rewrite Z.sub_0_r. simpl.
    destruct (Z.le_ge_cases i (Z.of_nat (String.length s))).
    + rewrite Z.min_l by lia. reflexivity.
    + rewrite Z.min_r by lia. rewrite Nat2Z.id.
      rewrite !take_all; auto; lia.
  - replace (Z.min 0 (Z.of_nat (String.length s))) with 0 in * by lia.
    assert (Hz : Z.min i (Z.of_nat (String.length s)) = 0) by lia.
    destruct (Z.eq_dec i 0) as [->|]; [reflexivity|].
    assert (String.length s = 0%nat) by lia.
    destruct s; [|discriminate]. destruct (Z.to_nat i); reflexivity.
Qed.

Lemma length_rstrip_le c s :
  (String.length (PyStr.rstrip_char c s) <= String.length s)%nat.
Proof.
  induction s as [|b s IH]; simpl; [lia|].
  destruct (PyStr.rstrip_char c s) eqn:E.
  - destruct (Ascii.eqb b c); simpl; lia.
  - simpl in *. lia.
Qed.

Lemma length_rstrip_lt c s :
  last_is c s = true ->
  (String.length (PyStr.rstrip_char c s) < String.length s)%nat.
Proof.
  induction s as [|b s IH]; simpl; [discriminate|].
  destruct s as [|b' s'].
  - intros ->. simpl. lia.
  - intros H. specialize (IH H).
    destruct (PyStr.rstrip_char c (String b' s')) eqn:E.
    + destruct (Ascii.eqb b c); simpl in *; lia.
    + simpl in *. lia.
Qed.

Lemma rfind_char_from_bounds c s : forall i last,
  last < i ->
  let r := PyStr.rfind_char_from i c s last in
  (r = last \/ i <= r) /\ r < i + PyStr.len s
  /\ (s <> EmptyString -> r = i + PyStr.len s - 1 -> last_is c s = true).
Proof.
  unfold PyStr.len.
  induction s as [|b s IH]; intros i last Hl; simpl.
  - split; [auto|]. split; [lia|]. congruence.
  - destruct (Ascii.eqb b c) eqn:Eb.
    + destruct (IH (i + 1) i ltac:(lia)) as (H1 & H2 & H3).
      split; [lia|]. split; [lia|]. intros _ Hr.
      destruct s as [|b' s']; [reflexivity|].
      apply H3; [congruence|]. simpl String.length in *. lia.
    + destruct (IH (i + 1) last ltac:(lia)) as (H1 & H2 & H3).
      split; [lia|]. split; [lia|]. intros _ Hr.
      destruct s as [|b' s'].
      * simpl in *. lia.
      * apply H3; [congruence|]. simpl String.length in *. lia.
Qed.

(** The parent of a path is the path itself (for the empty path and for a
    path made of separators only) or a strictly shorter path. *)
Lemma dirname_shorter (p : string) :
  os_path.dirname p = p
  \/ (String.length (os_path.dirname p) < String.length p)%nat.
Proof.
  unfold os_path.dirname.
  destruct (rfind_char_from_bounds os_path.sep p 0 (-1) ltac:(lia)) as (H1 & H2 & H3).
  fold (PyStr.rfind_char p os_path.sep) in *.
  set (i := PyStr.rfind_char p os_path.sep + 1) in *.
  assert (Hi : 0 <= i <= PyStr.len p) by (unfold i; lia).
  rewrite slice_to_take by lia.
  set (head := PyStr.take (Z.to_nat i) p).
  assert (Hlen : String.length head = Z.to_nat i).
  { unfold head. rewrite length_take. unfold PyStr.len in Hi. lia. }
  destruct (Z.eq_dec i (PyStr.len p)) as [Heq|Hne].
  - assert (Hhead : head = p).
    { unfold head. apply take_all. unfold PyStr.len in Heq. lia. }
    rewrite Hhead. destruct p as [|a p']; [left; reflexivity|].
    destruct (String.eqb _ _); [left; reflexivity|right].
    apply length_rstrip_lt. apply H3; [congruence|]. unfold i in Heq. lia.
  - right. unfold PyStr.len in *.
    destruct head eqn:Eh; [simpl in *; lia|]. rewrite <- Eh in *.
    destruct (String.eqb _ _); [lia|].
    pose proof (length_rstrip_le os_path.sep head). lia.
Qed.

(* ===================================================================== *)
(** ** Facts about ordered dictionaries and states *)
(* ===================================================================== *)




Lemma dent_patch_refl e : dent_patch e e.
Proof. destruct e as [k [[i s] m]]. simpl. auto. Qed.

Lemma dent_patch_trans e1 e2 e3 :
  dent_patch e1 e2 -> dent_patch e2 e3 -> dent_patch e1 e3.
Proof.
  destruct e1 as [k1 [[i1 s1] m1]], e2 as [k2 [[i2 s2] m2]],
           e3 as [k3 [[i3 s3] m3]]; simpl.
  intros (-> & -> & ->) (-> & -> & ->). auto.
Qed.

Lemma od_set_patch d k icon size_ size' mtime :
  od_get d k = Some (icon, size_, mtime) ->
  Forall2 dent_patch d (od_set d k (icon, size', mtime)).
Proof.
  induction d as [|[k' v'] d IH]; simpl; [discriminate|].
  destruct (String.eqb k' k) eqn:E.
  - intros [= ->]. constructor.
    + simpl. auto.
    + clear. induction d; constructor; auto using dent_patch_refl.
  - intros H. constructor; [apply dent_patch_refl | auto].
Qed.

Lemma value_evolves_refl v : value_evolves v v.
Proof.
  destruct v; simpl; auto.
  induction d; constructor; auto using dent_patch_refl.
Qed.

Lemma value_evolves_trans v1 v2 v3 :
  value_evolves v1 v2 -> value_evolves v2 v3 -> value_evolves v1 v3.
Proof.
  destruct v1, v2, v3; simpl; try tauto; try congruence.
  intros H12. revert d1. induction H12; intros d3 H23; inversion H23; subst;
    constructor; eauto using dent_patch_trans.
Qed.

Lemma extends_refl st : extends st st.
Proof. intros q v H. split; [eauto using value_evolves_refl | reflexivity]. Qed.

Lemma extends_trans st1 st2 st3 :
  extends st1 st2 -> extends st2 st3 -> extends st1 st3.
Proof.
  intros H12 H23 q v H.
  destruct (H12 q v H) as [(v2 & Hv2 & E12) C12].
  destruct (H23 q v2 Hv2) as [(v3 & Hv3 & E23) C23].
  split; [eauto using value_evolves_trans | congruence].
Qed.

Lemma count_occ_snoc_ne (l : list string) (p q : string) :
  q <> p -> count_occ string_dec (l ++ [p]) q = count_occ string_dec l q.
Proof.
  intros Hne. rewrite count_occ_app. simpl.
  destruct (string_dec p q); [congruence | lia].
Qed.

(** A GET for an unpopulated path, whatever is then stored in its slot. *)
Lemma extends_fetch st p :
  _cache st !! p = None -> extends st (log_get st p).
Proof.
  intros Hp q v H. simpl. split; [eauto using value_evolves_refl|].
  apply count_occ_snoc_ne. congruence.
Qed.

Lemma extends_store st p v :
  _cache st !! p = None -> extends st (set_cache st p v).
Proof.
  intros Hp q w H. simpl. split; [|reflexivity].
  exists w. split; [|apply value_evolves_refl].
  rewrite lookup_insert_ne; [exact H | congruence].
Qed.

Lemma extends_patch st p v v' :
  _cache st !! p = Some v -> value_evolves v v' ->
  extends st (set_cache st p v').
Proof.
  intros Hp Hev q w H. simpl. split; [|reflexivity].
  destruct (decide (p = q)) as [->|Hne].
  - rewrite lookup_insert_eq. exists v'. split; [reflexivity|]. congruence.
  - rewrite lookup_insert_ne by exact Hne. eauto using value_evolves_refl.
Qed.

(* ===================================================================== *)
(** ** Facts about [_get] *)
(* ===================================================================== *)

(** A populated slot is answered from the cache, and nothing changes. *)
Lemma get_fuel_hit n p st v :
  _cache st !! p = Some v ->
  _get_fuel (S n) p st =
    (match v with VNone => Raise (FileNotFoundError p) | _ => Return v end, st).
Proof. intros H. simpl. rewrite H. destruct v; reflexivity. Qed.

Lemma cache_lookup_inv st p r st' :
  cache_lookup st p = (r, st') ->
  st' = st /\ (forall v, r = Return v -> _cache st !! p = Some v).
Proof.
  unfold cache_lookup. destruct (_cache st !! p) eqn:E; intros [= <- <-];
    split; auto; intros v' [=]; congruence.
Qed.

(** What any call of [_get] preserves, and what it returns. *)
Lemma get_fuel_inv n : forall p st r st',
  _get_fuel n p st = (r, st') ->
  extends st st' /\ fd st' = fd st
  /\ (forall v, r = Return v -> _cache st' !! p = Some v).
Proof.
  induction n as [|n IH]; intros p st r st' H; simpl in H.
  { injection H as <- <-. (split; [|split]); auto using extends_refl. intros v [=]. }
  destruct (_cache st !! p) as [v0|] eqn:Hc.
  { assert (st' = st /\ (forall v, r = Return v -> v0 = v)) as [-> Hr].
    { destruct v0; injection H as <- <-; split; auto; intros v [=]; auto. }
    (split; [|split]); auto using extends_refl. intros v Hv. rewrite Hc.
    f_equal; auto. }
  pose proof (extends_fetch st p Hc) as E1.
  set (st1 := log_get st p) in *.
  assert (Hc1 : _cache st1 !! p = None) by exact Hc.
  destruct (status_code _ =? 404).
  { injection H as <- <-. (split; [|split]); [|reflexivity|intros v [=]].
    eapply extends_trans; [exact E1 | apply extends_store; exact Hc1]. }
  destruct (negb _).
  { injection H as <- <-. (split; [|split]); [exact E1|reflexivity|intros v [=]]. }
  destruct (PyStr.startswith _ _).
  { destruct (_parse_listing _) as [d|e|].
    - apply cache_lookup_inv in H as [-> Hr]. (split; [|split]); auto.
      eapply extends_trans; [exact E1 | apply extends_store; exact Hc1].
    - injection H as <- <-. (split; [|split]); [exact E1|reflexivity|intros v [=]].
    - injection H as <- <-. (split; [|split]); [exact E1|reflexivity|intros v [=]]. }
  set (st2 := set_cache st1 p _) in *.
  assert (E2 : extends st st2).
  { eapply extends_trans; [exact E1 | apply extends_store; exact Hc1]. }
  destruct (_get_fuel n (os_path.dirname p) st2) as [r3 st3] eqn:Hrec.
  apply IH in Hrec as (E3 & F3 & R3).
  assert (E : extends st st3) by (eapply extends_trans; eauto).
  destruct r3 as [pardir|e|];
    [| injection H as <- <-; (split; [|split]); auto; intros v [=] ..].
  specialize (R3 pardir eq_refl).
  destruct pardir as [|d|b];
    [injection H as <- <-; (split; [|split]); auto; intros v [=] | |
     injection H as <- <-; (split; [|split]); auto; intros v [=]].
  destruct (od_get d (os_path.basename p)) as [[[icon size_] mtime]|] eqn:Hd;
    [| injection H as <- <-; (split; [|split]); auto; intros v [=]].
  apply cache_lookup_inv in H as [-> Hr]. (split; [|split]); auto.
  eapply extends_trans; [exact E|].
  eapply extends_patch; [exact R3|]. simpl. eapply od_set_patch; eauto.
Qed.

(** The parser raises or returns: it has no bounded recursion. *)
Lemma decode_size_total s u : decode_size s u <> OutOfFuel.
Proof.
  unfold decode_size. destruct (String.eqb s "-"); [discriminate|].
  unfold PyFloat.of_string.
  destruct (PyFloat.parse_decimal s 0 None false) as [[n k]|]; [|discriminate].
  destruct (PyStr.list_index u sizes 0); [|discriminate].
  unfold PyFloat.to_int. destruct (PyFloat.mul _ _); discriminate.
Qed.

Lemma strptime_total s : datetime.strptime s <> OutOfFuel.
Proof.
  unfold datetime.strptime.
  destruct (Re.re_match _ _) as [[rest g]|]; [|discriminate].
  destruct rest; [|discriminate].
  destruct (_ && _); discriminate.
Qed.

Lemma parse_entry_total line : parse_entry line <> OutOfFuel.
Proof.
  unfold parse_entry.
  destruct (Re.re_match _ _) as [[rest mo]|]; [|discriminate].
  destruct (negb _); [discriminate|].
  destruct (negb _); [discriminate|].
  pose proof (strptime_total
    (Re.group mo "date" +:+ " " +:+ Re.group mo "time")) as Ht.
  destruct (datetime.strptime _); [|discriminate|congruence].
  pose proof (decode_size_total (Re.group mo "size") (Re.group mo "sizeunit")) as Hs.
  destruct (decode_size _ _); [discriminate|discriminate|congruence].
Qed.

Lemma parse_entries_total ls : forall acc, parse_entries ls acc <> OutOfFuel.
Proof.
  induction ls as [|l ls IH]; intros acc; simpl; [discriminate|].
  pose proof (parse_entry_total l) as Hl.
  destruct (parse_entry l) as [[name v]|e|]; [apply IH|discriminate|congruence].
Qed.

Lemma parse_listing_total text : _parse_listing text <> OutOfFuel.
Proof.
  unfold _parse_listing. destruct (negb _); [discriminate|].
  destruct (listing_lines text) as [|header rest]; [discriminate|].
  destruct (negb _); [discriminate|].
  destruct (negb _); [discriminate|]. apply parse_entries_total.
Qed.

(** With fuel beyond the length of the path the recursion never runs out:
    the parent is shorter, or it is the path itself, whose slot was just
    filled. *)
Lemma get_fuel_enough n : forall p st,
  (String.length p + 2 <= n)%nat -> fst (_get_fuel n p st) <> OutOfFuel.
Proof.
  induction n as [|n IH]; intros p st Hn; [lia|]. simpl.
  destruct (_cache st !! p) as [v0|] eqn:Hc.
  { destruct v0; simpl; discriminate. }
  destruct (status_code _ =? 404); [simpl; discriminate|].
  destruct (negb _); [simpl; discriminate|].
  destruct (PyStr.startswith _ _).
  { pose proof (parse_listing_total
      (text (server (map _full_path (gets st)) (_full_path p)))) as Hp.
    destruct (_parse_listing _); simpl; try discriminate; [|congruence].
    unfold cache_lookup. simpl. rewrite lookup_insert_eq. simpl. discriminate. }
  set (st2 := set_cache _ p _).
  assert (Hrec : fst (_get_fuel n (os_path.dirname p) st2) <> OutOfFuel).
  { destruct (dirname_shorter p) as [Heq|Hlt].
    - rewrite Heq. destruct n as [|n']; [lia|].
      erewrite get_fuel_hit by (unfold st2; simpl; apply lookup_insert_eq).
      simpl. discriminate.
    - apply IH. lia. }
  destruct (_get_fuel n (os_path.dirname p) st2) as [r3 st3] eqn:Hrec'.
  simpl in Hrec.
  destruct r3 as [pardir|e|]; simpl; try discriminate; [|congruence].
  destruct pardir as [|d|b]; simpl; try discriminate.
  destruct (od_get d (os_path.basename p)) as [[[icon size_] mtime]|];
    simpl; try discriminate.
  unfold cache_lookup. case_match; simpl; discriminate.
Qed.

(** More fuel does not change a result that was reached. *)
Lemma get_fuel_mono n : forall m p st,
  fst (_get_fuel n p st) <> OutOfFuel -> (n <= m)%nat ->
  _get_fuel m p st = _get_fuel n p st.
Proof.
  induction n as [|n IH]; intros m p st H Hm; [simpl in H; congruence|].
  destruct m as [|m]; [lia|]. simpl in *.
  destruct (_cache st !! p) as [v0|]; [reflexivity|].
  destruct (status_code _ =? 404); [reflexivity|].
  destruct (negb _); [reflexivity|].
  destruct (PyStr.startswith _ _); [reflexivity|].
  set (st2 := set_cache _ p _) in *.
  rewrite (IH m (os_path.dirname p) st2); [reflexivity | | lia].
  destruct (_get_fuel n (os_path.dirname p) st2) as [[pardir|e|] st3];
    simpl in *; congruence.
Qed.

Lemma get_fuel_get n p st :
  (String.length p + 2 <= n)%nat -> _get_fuel n p st = _get p st.
Proof.
  intros Hn. unfold _get. apply get_fuel_mono; [|exact Hn].
  apply get_fuel_enough. lia.
Qed.

Lemma get_hit p st v :
  _cache st !! p = Some v ->
  _get p st =
    (match v with VNone => Raise (FileNotFoundError p) | _ => Return v end, st).
Proof.
  intros H. unfold _get. replace (String.length p + 2)%nat
    with (S (String.length p + 1)) by lia. apply get_fuel_hit. exact H.
Qed.

Lemma get_inv p st r st' :
  _get p st = (r, st') ->
  extends st st' /\ fd st' = fd st
  /\ (forall v, r = Return v -> _cache st' !! p = Some v).
Proof. apply get_fuel_inv. Qed.

Lemma get_not_out_of_fuel p st : fst (_get p st) <> OutOfFuel.
Proof. apply get_fuel_enough. lia. Qed.

(** One step of [_get] on an unpopulated slot, by the response. *)
Lemma get_miss p st :
  _cache st !! p = None ->
  let response := server (map _full_path (gets st)) (_full_path p) in
  let st1 := log_get st p in
  _get p st =
    if status_code response =? 404 then
      (Raise (FileNotFoundError p), set_cache st1 p VNone)
    else if negb (status_code response =? 200) then
      (Raise (FuseOSError errno.EIO), st1)
    else if PyStr.startswith (content response) LISTING then
      match _parse_listing (text response) with
      | Return d => (Return (VOrderedDict d), set_cache st1 p (VOrderedDict d))
      | Raise e => (Raise e, st1)
      | OutOfFuel => (OutOfFuel, st1)
      end
    else
      let st2 := set_cache st1 p (VBytes (content response)) in
      match _get (os_path.dirname p) st2 with
      | (Return (VOrderedDict d), st3) =>
          match od_get d (os_path.basename p) with
          | Some (icon, size_, mtime_dt) =>
              cache_lookup
                (set_cache st3 (os_path.dirname p)
                   (VOrderedDict
                      (od_set d (os_path.basename p)
                         (icon, PyStr.len (content response), mtime_dt))))
                p
          | None => (Raise (KeyError (os_path.basename p)), st3)
          end
      | (Return _, st3) => (Raise TypeError, st3)
      | (Raise e, st3) => (Raise e, st3)
      | (OutOfFuel, st3) => (OutOfFuel, st3)
      end.
Proof.
  intros Hc. unfold _get at 1.
  replace (String.length p + 2)%nat with (S (String.length p + 1)) by lia.
  simpl. rewrite Hc.
  destruct (status_code _ =? 404); [reflexivity|].
  destruct (negb _); [reflexivity|].
  destruct (PyStr.startswith _ _).
  { destruct (_parse_listing _); try reflexivity.
    unfold cache_lookup. simpl. rewrite lookup_insert_eq. reflexivity. }
  set (st2 := set_cache _ p _).
  assert (Hrec : _get_fuel (String.length p + 1) (os_path.dirname p) st2
                 = _get (os_path.dirname p) st2).
  { destruct (dirname_shorter p) as [Heq|Hlt].
    - rewrite Heq.
      assert (Hhit : _cache st2 !! p = Some (VBytes (content
                (server (map _full_path (gets st)) (_full_path p)))))
        by (unfold st2; simpl; apply lookup_insert_eq).
      rewrite (get_hit p st2 _ Hhit).
      replace (String.length p + 1)%nat with (S (String.length p)) by lia.
      rewrite (get_fuel_hit _ p st2 _ Hhit). reflexivity.
    - apply get_fuel_get. lia. }
  rewrite Hrec.
  destruct (_get (os_path.dirname p) st2) as [[[|d|b]|e|] st3]; reflexivity.
Qed.

(* ===================================================================== *)
(** ** Facts about the filesystem operations *)
(* ===================================================================== *)

Lemma getdent_inv p st r st' :
  _getdent p st = (r, st') -> extends st st' /\ fd st' = fd st.
Proof.
  unfold _getdent. destruct (String.eqb p "/").
  { intros [= <- <-]. auto using extends_refl. }
  destruct (_get (os_path.dirname p) st) as [r1 st1] eqn:Hg.
  apply get_inv in Hg as (E & F & _).
  intros H.
  assert (st' = st1) as ->; [|auto].
  repeat case_match; congruence.
Qed.

Lemma run_op_extends o st : extends st (run_op o st).
Proof.
  destruct o as [p m|p|p|p f|p l off]; simpl.
  - unfold access. destruct (negb _); [apply extends_refl|].
    destruct (_getdent p st) as [r1 st1] eqn:Hg.
    apply getdent_inv in Hg as [E _].
    repeat case_match; simpl; exact E.
  - unfold getattr.
    destruct (_getdent p st) as [r1 st1] eqn:Hg.
    apply getdent_inv in Hg as [E _].
    repeat case_match; simpl; exact E.
  - unfold readdir.
    destruct (_get p st) as [r1 st1] eqn:Hg.
    apply get_inv in Hg as (E & _).
    repeat case_match; simpl; exact E.
  - unfold open. destruct (negb _); [apply extends_refl|].
    destruct (_get p st) as [r1 st1] eqn:Hg.
    apply get_inv in Hg as (E & _).
    repeat case_match; simpl; exact E.
  - unfold read.
    destruct (_get p st) as [r1 st1] eqn:Hg.
    apply get_inv in Hg as (E & _).
    repeat case_match; simpl; exact E.
Qed.

Lemma run_ops_extends ops : forall st, extends st (run_ops ops st).
Proof.
  unfold run_ops.
  induction ops as [|o ops IH]; intros st; simpl; [apply extends_refl|].
  eapply extends_trans; [apply run_op_extends | apply IH].
Qed.

(** The local date and time of the epoch convert back to the epoch. *)
Lemma epoch_roundtrip :
  -86400 < utcoffset < 86400 ->
  datetime.timestamp utcoffset (datetime.fromtimestamp utcoffset 0) = 0.
Proof.
  intros Hoff. unfold datetime.fromtimestamp. rewrite Z.add_0_l.
  destruct (Z_lt_le_dec utcoffset 0) as [Hneg|Hpos].
  - assert (Hq : utcoffset / 86400 = -1) by (Z.div_mod_to_equations; lia).
    rewrite Hq.
    change (datetime.ord2ymd (-1 + datetime.epoch_ord)) with (1969, 12, 31).
    unfold datetime.timestamp. simpl.
    change (datetime.ymd2ord 1969 12 31 - datetime.epoch_ord) with (-1).
    Z.div_mod_to_equations. lia.
  - assert (Hq : utcoffset / 86400 = 0) by (Z.div_mod_to_equations; lia).
    rewrite Hq.
    change (datetime.ord2ymd (0 + datetime.epoch_ord)) with (1970, 1, 1).
    unfold datetime.timestamp. simpl.
    change (datetime.ymd2ord 1970 1 1 - datetime.epoch_ord) with 0.
    Z.div_mod_to_equations. lia.
Qed.

(* ===================================================================== *)
(** ** The listing parser *)
(* ===================================================================== *)

Lemma list_index_range x l : forall i j,
  PyStr.list_index x l i = Some j -> i <= j < i + Z.of_nat (List.length l).
Proof.
  induction l as [|y l IH]; intros i j; simpl; [discriminate|].
  destruct (String.eqb x y).
  - intros [= <-]. lia.
  - intros H. apply IH in H. lia.
Qed.

(** What [parse_entry] returns, read off the groups of the match. *)
Lemma parse_entry_inv line name icon size mtime :
  parse_entry line = Return (name, (icon, size, mtime)) ->
  exists rest mo,
    Re.re_match pattern line = Some (rest, mo)
    /\ name = PyStr.rstrip_char "/"%char (Re.group mo "name")
    /\ icon = Re.group mo "icon"
    /\ Re.group mo "url" = Re.group mo "name"
    /\ PyStr.endswith (Re.group mo "name") "/" = String.eqb icon "DIR"
    /\ datetime.strptime (Re.group mo "date" +:+ " " +:+ Re.group mo "time")
       = Return mtime
    /\ decode_size (Re.group mo "size") (Re.group mo "sizeunit") = Return size.
Proof.
  unfold parse_entry.
  destruct (Re.re_match pattern line) as [[rest mo]|]; [|discriminate].
  destruct (String.eqb (Re.group mo "url") (Re.group mo "name")) eqn:Eurl;
    simpl; [|discriminate].
  destruct (Bool.eqb _ _) eqn:Edir; simpl; [|discriminate].
  destruct (datetime.strptime _) as [mt|e|] eqn:Et; try discriminate.
  destruct (decode_size _ _) as [sz|e|] eqn:Es; try discriminate.
  intros [= <- <- <- <-]. exists rest, mo.
  repeat split; auto.
  - apply String.eqb_eq. exact Eurl.
  - apply Bool.eqb_prop. exact Edir.
Qed.

Lemma parse_entry_name line name v :
  parse_entry line = Return (name, v) -> name = entry_name line.
Proof.
  destruct v as [[icon size] mtime]. intros H.
  apply parse_entry_inv in H as (rest & mo & Hm & -> & _).
  unfold entry_name, anchor_text. rewrite Hm. reflexivity.
Qed.

Lemma od_set_fresh d k v :
  ~ In k (od_keys d) -> od_set d k v = (d ++ [(k, v)])%list.
Proof.
  unfold od_keys. induction d as [|[k' v'] d IH]; simpl; [reflexivity|].
  intros Hn. destruct (String.eqb k' k) eqn:E.
  - apply String.eqb_eq in E. tauto.
  - f_equal. apply IH. tauto.
Qed.

(** With pairwise distinct names, the loop appends one entry per line. *)
Lemma parse_entries_distinct ls : forall acc d,
  parse_entries ls acc = Return d ->
  List.NoDup (od_keys acc ++ map entry_name ls)%list ->
  exists es, d = (acc ++ es)%list
             /\ Forall2 (fun line e => parse_entry line = Return e) ls es.
Proof.
  induction ls as [|l ls IH]; intros acc d; simpl.
  - intros [= <-] _. exists []. rewrite app_nil_r. split; [reflexivity|constructor].
  - destruct (parse_entry l) as [[name v]|e|] eqn:El; try discriminate.
    intros H Hnd.
    pose proof (parse_entry_name _ _ _ El) as Hname.
    assert (Hfresh : ~ In name (od_keys acc)).
    { rewrite Hname. apply List.NoDup_remove_2 in Hnd.
      intros Hin. apply Hnd. apply in_or_app. left. exact Hin. }
    rewrite (od_set_fresh _ _ _ Hfresh) in H.
    apply IH in H as (es & -> & Hes).
    + exists ((name, v) :: es). rewrite <- app_assoc. split; [reflexivity|].
      constructor; assumption.
    + unfold od_keys. rewrite map_app, <- app_assoc. simpl.
      rewrite Hname. exact Hnd.
Qed.

Lemma parse_listing_entries text d :
  _parse_listing text = Return d ->
  parse_entries (entry_lines (listing_lines text)) [] = Return d.
Proof.
  unfold _parse_listing. destruct (negb _); [discriminate|].
  destruct (listing_lines text) as [|header rest] eqn:El; [discriminate|].
  destruct (negb _); [discriminate|].
  destruct (negb _); [discriminate|]. auto.
Qed.

Lemma NoDup_map_inv' {A B} (f : A -> B) (l : list A) :
  List.NoDup (map f l) -> List.NoDup l.
Proof.
  induction l as [|a l IH]; simpl; intros H; [constructor|].
  inversion H as [|? ? Hn Hd]; subst. constructor; [|auto].
  intros Hin. apply Hn. apply in_map. exact Hin.
Qed.

(** C5 (amended): for every listing body that the parser accepts and whose
    entry names (the anchor texts with the trailing separators stripped) are
    pairwise distinct, the returned mapping holds one entry per entry line,
    in the order of the lines: the k-th entry is what the k-th line parses
    to, its key is the k-th anchor text stripped, and anchors and keys are
    both free of repetitions, so that stripping is a bijection between them. *)
Theorem parse_listing_order text d :
  _parse_listing text = Return d ->
  List.NoDup (map entry_name (entry_lines (listing_lines text))) ->
  Forall2 (fun line e => parse_entry line = Return e)
          (entry_lines (listing_lines text)) d
  /\ od_keys d
     = map (PyStr.rstrip_char "/"%char)
           (map anchor_text (entry_lines (listing_lines text)))
  /\ List.NoDup (map anchor_text (entry_lines (listing_lines text)))
  /\ List.NoDup (od_keys d).
Proof.
  intros Hp Hnd. apply parse_listing_entries in Hp.
  apply parse_entries_distinct in Hp as (es & -> & Hes); [|exact Hnd].
  simpl. split; [exact Hes|].
  assert (Hk : od_keys es = map entry_name (entry_lines (listing_lines text))).
  { unfold od_keys. clear Hnd.
    induction Hes as [|l [n v] ls es' Hl _ IH]; simpl; [reflexivity|].
    f_equal; [|exact IH]. exact (parse_entry_name _ _ _ Hl). }
  split; [|split].
  - rewrite Hk, map_map. reflexivity.
  - apply (NoDup_map_inv' (PyStr.rstrip_char "/"%char)).
    rewrite map_map. exact Hnd.
  - rewrite Hk. exact Hnd.
Qed.

Lemma pow_1024 rank : 0 <= rank <= 5 -> 2 ^ (10 * rank) = 1024 ^ rank.
Proof.
  intros H.
  assert (rank = 0 \/ rank = 1 \/ rank = 2 \/ rank = 3 \/ rank = 4 \/ rank = 5)
    as [->|[->|[->|[->|[->| ->]]]]] by lia; reflexivity.
Qed.

Lemma In_upto len n : 0 <= n < Z.of_nat len -> In n (upto len).
Proof.
  intros H. unfold upto. apply in_map_iff. exists (Z.to_nat n).
  split; [lia|]. apply in_seq. lia.
Qed.

(** On these numbers, with a unit up to T, the floating-point computation
    of the size is exact. *)
Lemma printed_sizes_exact :
  forallb (fun rank =>
             forallb (size_is_exact rank 0) (upto 1024)
             && forallb (size_is_exact rank 1) (upto 100))
          (upto 5) = true.
Proof. vm_compute. reflexivity. Qed.

Lemma size_is_exact_printed n k rank :
  printed_size n k = true -> 0 <= rank <= 4 -> size_is_exact rank k n = true.
Proof.
  intros Hp Hr. pose proof printed_sizes_exact as H.
  rewrite forallb_forall in H.
  specialize (H rank (In_upto 5 rank ltac:(lia))).
  apply andb_prop in H as [H0 H1]. rewrite forallb_forall in H0, H1.
  destruct k as [|[|k]]; simpl in Hp; [| |discriminate];
    apply andb_prop in Hp as [Hlo Hhi];
    apply Z.leb_le in Hlo; apply Z.ltb_lt in Hhi.
  - apply H0. apply In_upto. lia.
  - apply H1. apply In_upto. lia.
Qed.

(** C1 (amended): for every entry line the parser accepts, the size stored
    is 0 when the size field is a dash, whatever the icon, and otherwise
    [int((0.1 + float(raw)) * 1024 ^ rank)] in double precision, [rank] being
    the position of the unit in '', K, M, G, T, P: the bias is added and
    the result scaled before the truncation, for files and directories
    alike.  For a whole number below 1024 or a number below 10 with one
    decimal, and a unit up to T, this is exactly
    [floor((raw + 0.1) * 1024 ^ rank)]. *)
Theorem size_decoding line name icon size mtime :
  parse_entry line = Return (name, (icon, size, mtime)) ->
  exists rest mo,
    Re.re_match pattern line = Some (rest, mo)
    /\ (Re.group mo "size" = "-" -> size = 0)
    /\ (Re.group mo "size" <> "-" ->
        exists raw rank,
          PyFloat.of_string (Re.group mo "size") = Return raw
          /\ PyStr.list_index (Re.group mo "sizeunit") sizes 0 = Some rank
          /\ 0 <= rank <= 5
          /\ PyFloat.to_int
               (PyFloat.mul (PyFloat.add PyFloat.point_one raw)
                            (PyFloat.of_int (1024 ^ rank)))
             = Return size
          /\ (forall n k,
                PyFloat.parse_decimal (Re.group mo "size") 0 None false
                = Some (n, k) ->
                printed_size n k = true -> rank <= 4 ->
                size = exact_size n k rank)).
Proof.
  intros H. apply parse_entry_inv in H as (rest & mo & Hm & _ & _ & _ & _ & _ & Hs).
  exists rest, mo. split; [exact Hm|].
  unfold decode_size in Hs. split.
  - intros E. rewrite E in Hs. simpl in Hs. congruence.
  - intros E. apply String.eqb_neq in E. rewrite E in Hs.
    unfold PyFloat.of_string in *.
    destruct (PyFloat.parse_decimal _ 0 None false) as [[n k]|] eqn:Ep;
      [|discriminate].
    destruct (PyStr.list_index _ sizes 0) as [rank|] eqn:Ei; [|discriminate].
    pose proof (list_index_range _ _ _ _ Ei) as Hr. simpl in Hr.
    exists (PyFloat.of_decimal n k), rank. rewrite <- pow_1024 by lia.
    split; [reflexivity|]. split; [reflexivity|]. split; [lia|].
    split; [exact Hs|].
    intros n' k' [= <- <-] Hp Hr4.
    pose proof (size_is_exact_printed n k rank Hp ltac:(lia)) as Hx.
    unfold size_is_exact in Hx. rewrite Hs in Hx.
    apply Z.eqb_eq in Hx. exact Hx.
Qed.

(* ===================================================================== *)
(** ** The path cache *)
(* ===================================================================== *)

(** The log of requests only grows. *)
Lemma get_fuel_gets n : forall p st r st',
  _get_fuel n p st = (r, st') -> exists l, gets st' = (gets st ++ l)%list.
Proof.
  induction n as [|n IH]; intros p st r st' H; simpl in H.
  { injection H as <- <-. exists []. rewrite app_nil_r. reflexivity. }
  assert (Hnil : exists l, gets st = (gets st ++ l)%list)
    by (exists []; rewrite app_nil_r; reflexivity).
  assert (Hone : exists l, (gets st ++ [p])%list = (gets st ++ l)%list)
    by (exists [p]; reflexivity).
  destruct (_cache st !! p) as [v0|] eqn:Hc.
  { destruct v0; injection H as <- <-; exact Hnil. }
  destruct (status_code _ =? 404); [injection H as <- <-; exact Hone|].
  destruct (negb _); [injection H as <- <-; exact Hone|].
  destruct (PyStr.startswith _ _).
  { destruct (_parse_listing _); try (injection H as <- <-; exact Hone).
    apply cache_lookup_inv in H as [-> _]. exact Hone. }
  destruct (_get_fuel n _ _) as [r3 st3] eqn:Hrec.
  apply IH in Hrec as [l Hl]. simpl in Hl.
  assert (H3 : exists l', gets st3 = (gets st ++ l')%list).
  { exists ([p] ++ l)%list. rewrite Hl, <- app_assoc. reflexivity. }
  destruct r3 as [[|d|b]|e|]; try (injection H as <- <-; exact H3).
  destruct (od_get d _) as [[[icon size_] mtime]|];
    try (injection H as <- <-; exact H3).
  apply cache_lookup_inv in H as [-> _]. exact H3.
Qed.



(** C4 (amended): once the slot of a path is populated (with [None] for a
    missing path, with a listing or with file content), it stays populated
    through any sequence of operations, no further GET is issued for that
    path, and a lookup is answered from the cache and leaves the state as it
    is: [FileNotFoundError] for a missing path, the cached value
    otherwise. *)
Theorem populated_path_not_fetched_again ops p st v :
  _cache st !! p = Some v ->
  count_occ string_dec (gets (run_ops ops st)) p
    = count_occ string_dec (gets st) p
  /\ exists v',
       _cache (run_ops ops st) !! p = Some v'
       /\ value_evolves v v'
       /\ _get p (run_ops ops st)
          = (match v with
             | VNone => Raise (FileNotFoundError p)
             | _ => Return v'
             end, run_ops ops st).
Proof.
  intros Hc. destruct (run_ops_extends ops st p v Hc) as [(v' & Hv' & Hev) Hcount].
  split; [exact Hcount|]. exists v'. split; [exact Hv'|]. split; [exact Hev|].
  rewrite (get_hit _ _ _ Hv'). destruct v, v'; simpl in Hev; try tauto; reflexivity.
Qed.

(** C8: when the fetch for an uncached path answers with a status other
    than 200 and 404, [_get] raises [FuseOSError(EIO)] and the cache is
    exactly as before; [readdir], [open] and [read] pass the error on; and
    the next lookup of the path issues a new GET for it. *)
Theorem transport_failure_not_cached p st :
  _cache st !! p = None ->
  status_code (server (map _full_path (gets st)) (_full_path p)) <> 200 ->
  status_code (server (map _full_path (gets st)) (_full_path p)) <> 404 ->
  _get p st = (Raise (FuseOSError errno.EIO), log_get st p)
  /\ _cache (log_get st p) = _cache st
  /\ readdir p st = (Raise (FuseOSError errno.EIO), log_get st p)
  /\ open p os.O_RDONLY st = (Raise (FuseOSError errno.EIO), log_get st p)
  /\ (forall length offset,
        read p length offset st = (Raise (FuseOSError errno.EIO), log_get st p))
  /\ exists l, gets (snd (_get p (log_get st p)))
               = (gets (log_get st p) ++ p :: l)%list.
Proof.
  intros Hc H200 H404.
  assert (Hg : _get p st = (Raise (FuseOSError errno.EIO), log_get st p)).
  { rewrite (get_miss p st Hc). cbv zeta.
    destruct (Z.eqb_spec (status_code (server (map _full_path (gets st))
                                              (_full_path p))) 404); [tauto|].
    destruct (Z.eqb_spec (status_code (server (map _full_path (gets st))
                                              (_full_path p))) 200); [tauto|].
    reflexivity. }
  split; [exact Hg|]. split; [reflexivity|].
  split; [unfold readdir; rewrite Hg; reflexivity|].
  split; [unfold open; simpl; rewrite Hg; reflexivity|].
  split; [intros; unfold read; rewrite Hg; reflexivity|].
  assert (Hc1 : _cache (log_get st p) !! p = None) by exact Hc.
  set (st1 := log_get st p) in *.
  assert (Hone : exists l, (gets st1 ++ [p])%list = (gets st1 ++ p :: l)%list)
    by (exists []; reflexivity).
  rewrite (get_miss p st1 Hc1). cbv zeta.
  destruct (status_code _ =? 404); [exact Hone|].
  destruct (negb _); [exact Hone|].
  destruct (PyStr.startswith _ _).
  { destruct (_parse_listing _); exact Hone. }
  destruct (_get (os_path.dirname p) _) as [r3 st3] eqn:Hrec.
  apply get_fuel_gets in Hrec as [l Hl]. simpl in Hl.
  assert (H3 : exists l', gets st3 = (gets st1 ++ p :: l')%list).
  { exists l. rewrite Hl, <- app_assoc. reflexivity. }
  destruct r3 as [[|d|b]|e|]; try exact H3.
  destruct (od_get d _) as [[[icon size_] mtime]|]; try exact H3.
  unfold cache_lookup. case_match; exact H3.
Qed.

(** C9 (amended): the recursive parent lookup of [_get] ends for every path:
    with any fuel above the length of the path plus one the call returns or
    raises, with one and the same result.  Each recursive lookup is on
    [dirname p], which is strictly shorter than [p] or is [p] itself (the
    empty path and the paths made of separators only, such as the root);
    in that case the lookup is answered from the slot just filled with the
    body, and the call raises [TypeError] with the body left in the cache. *)
Theorem get_terminates p st :
  (os_path.dirname p = p
   \/ (String.length (os_path.dirname p) < String.length p)%nat)
  /\ (exists r st',
        r <> OutOfFuel
        /\ forall fuel, (String.length p + 2 <= fuel)%nat ->
                        _get_fuel fuel p st = (r, st'))
  /\ (os_path.dirname p = p ->
      _cache st !! p = None ->
      forall resp, resp = server (map _full_path (gets st)) (_full_path p) ->
      status_code resp = 200 ->
      PyStr.startswith (content resp) LISTING = false ->
      _get p st
      = (Raise TypeError, set_cache (log_get st p) p (VBytes (content resp)))).
Proof.
  split; [apply dirname_shorter|]. split.
  - destruct (_get p st) as [r st'] eqn:Hg. exists r, st'. split.
    + pose proof (get_not_out_of_fuel p st) as H. rewrite Hg in H. exact H.
    + intros fuel Hf. rewrite get_fuel_get by exact Hf. exact Hg.
  - intros Heq Hc resp -> Hs Hl.
    rewrite (get_miss p st Hc). cbv zeta. rewrite Hs, Hl. simpl.
    rewrite Heq. erewrite get_hit by (simpl; apply lookup_insert_eq).
    reflexivity.
Qed.

(* ===================================================================== *)
(** ** The filesystem operations *)
(* ===================================================================== *)

(** C2 (amended): on a path whose cache slot holds a listing, [open] with
    read-only flags (the large-file flag set aside) raises
    [FuseOSError(EISDIR)], and with any other flags [FuseOSError(EROFS)];
    on a path whose cache slot holds file content, [readdir] raises
    [FuseOSError(ENOTDIR)].  The state is unchanged in each case. *)
Theorem directory_file_conflicts p st :
  (forall d flags,
      _cache st !! p = Some (VOrderedDict d) ->
      Z.land flags (Z.lnot O_LARGEFILE) = os.O_RDONLY ->
      open p flags st = (Raise (FuseOSError errno.EISDIR), st))
  /\ (forall d flags,
      _cache st !! p = Some (VOrderedDict d) ->
      Z.land flags (Z.lnot O_LARGEFILE) <> os.O_RDONLY ->
      open p flags st = (Raise (FuseOSError errno.EROFS), st))
  /\ (forall b,
      _cache st !! p = Some (VBytes b) ->
      readdir p st = (Raise (FuseOSError errno.ENOTDIR), st)).
Proof.
  split; [|split].
  - intros d flags Hc Hf. unfold open. rewrite Hf. simpl.
    rewrite (get_hit _ _ _ Hc). reflexivity.
  - intros d flags Hc Hf. unfold open.
    destruct (Z.eqb_spec (Z.land flags (Z.lnot O_LARGEFILE)) os.O_RDONLY);
      [tauto|reflexivity].
  - intros b Hc. unfold readdir. rewrite (get_hit _ _ _ Hc). reflexivity.
Qed.

(** C6: [getattr] on the root returns, in any state and whatever the server
    would answer, a directory (mode 0o40555, two links) of size 0 with the
    epoch as its three times, and leaves the state as it is: nothing is
    looked up and nothing is fetched. *)
Theorem getattr_root st :
  -86400 < utcoffset < 86400 ->
  getattr "/" st
  = (Return {| st_atime := 0; st_ctime := 0; st_gid := gid;
               st_mode := Z.lor 365 stat.S_IFDIR; st_mtime := 0;
               st_nlink := 2; st_size := 0; st_uid := uid |},
     st).
Proof.
  intros Hoff. unfold getattr, _getdent. simpl.
  rewrite (epoch_roundtrip Hoff). reflexivity.
Qed.

(** C7 (amended): [access] raises [FuseOSError(EROFS)] when the mode asks
    for write access.  Otherwise it succeeds on the root, and on another
    path it looks the parent up: it raises [FuseOSError(ENOENT)] when the
    parent is missing, is not a listing, or does not list the name, raises
    [FuseOSError(EACCES)] when the mode asks for execute access and the
    entry's icon is not DIR, and succeeds in the remaining cases. *)
Theorem access_outcomes p mode st :
  (Z.land mode os.W_OK <> 0 ->
   access p mode st = (Raise (FuseOSError errno.EROFS), st))
  /\ (Z.land mode os.W_OK = 0 ->
      access "/" mode st = (Return tt, st))
  /\ (Z.land mode os.W_OK = 0 -> p <> "/" ->
      forall st',
        (forall q, _get (os_path.dirname p) st = (Raise (FileNotFoundError q), st') ->
           access p mode st = (Raise (FuseOSError errno.ENOENT), st'))
        /\ (forall b, _get (os_path.dirname p) st = (Return (VBytes b), st') ->
           access p mode st = (Raise (FuseOSError errno.ENOENT), st'))
        /\ (forall d, _get (os_path.dirname p) st = (Return (VOrderedDict d), st') ->
           od_get d (os_path.basename p) = None ->
           access p mode st = (Raise (FuseOSError errno.ENOENT), st'))
        /\ (forall d icon size mtime,
           _get (os_path.dirname p) st = (Return (VOrderedDict d), st') ->
           od_get d (os_path.basename p) = Some (icon, size, mtime) ->
           Z.land mode os.X_OK <> 0 -> icon <> "DIR" ->
           access p mode st = (Raise (FuseOSError errno.EACCES), st'))
        /\ (forall d icon size mtime,
           _get (os_path.dirname p) st = (Return (VOrderedDict d), st') ->
           od_get d (os_path.basename p) = Some (icon, size, mtime) ->
           Z.land mode os.X_OK = 0 \/ icon = "DIR" ->
           access p mode st = (Return tt, st'))).
Proof.
  split; [|split].
  - intros Hw. unfold access.
    destruct (Z.eqb_spec (Z.land mode os.W_OK) 0); [tauto|reflexivity].
  - intros Hw. unfold access. rewrite Hw. simpl.
    rewrite andb_false_r. reflexivity.
  - intros Hw Hp st'. apply String.eqb_neq in Hp.
    repeat split.
    + intros q Hg. unfold access, _getdent. rewrite Hw, Hp, Hg. reflexivity.
    + intros b Hg. unfold access, _getdent. rewrite Hw, Hp, Hg. reflexivity.
    + intros d Hg Hd. unfold access, _getdent. rewrite Hw, Hp, Hg, Hd.
      reflexivity.
    + intros d icon size mtime Hg Hd Hx Hi.
      unfold access, _getdent. rewrite Hw, Hp, Hg, Hd. simpl.
      apply String.eqb_neq in Hi. rewrite Hi.
      destruct (Z.eqb_spec (Z.land mode os.X_OK) 0); [tauto|reflexivity].
    + intros d icon size mtime Hg Hd Hx.
      unfold access, _getdent. rewrite Hw, Hp, Hg, Hd. simpl.
      destruct Hx as [Hx| ->].
      * rewrite Hx. reflexivity.
      * rewrite andb_false_r. reflexivity.
Qed.

(** C10 (amended): for a path other than the root whose parent's cache slot
    holds file content, [getattr] raises [FuseOSError(ENOENT)], and so does
    [access] for a mode that does not ask for write access; a mode that
    does makes [access] raise [FuseOSError(EROFS)].  The state is unchanged
    in each case. *)
Theorem child_of_file_not_found p b st :
  p <> "/" ->
  _cache st !! os_path.dirname p = Some (VBytes b) ->
  getattr p st = (Raise (FuseOSError errno.ENOENT), st)
  /\ (forall mode, Z.land mode os.W_OK = 0 ->
        access p mode st = (Raise (FuseOSError errno.ENOENT), st))
  /\ (forall mode, Z.land mode os.W_OK <> 0 ->
        access p mode st = (Raise (FuseOSError errno.EROFS), st)).
Proof.
  intros Hp Hc. apply String.eqb_neq in Hp.
  assert (Hd : _getdent p st = (Raise (FuseOSError errno.ENOENT), st)).
  { unfold _getdent. rewrite Hp, (get_hit _ _ _ Hc). reflexivity. }
  split; [|split].
  - unfold getattr. rewrite Hd. reflexivity.
  - intros mode Hw. unfold access. rewrite Hw, Hd. reflexivity.
  - intros mode Hw. unfold access.
    destruct (Z.eqb_spec (Z.land mode os.W_OK) 0); [tauto|reflexivity].
Qed.

(* ===================================================================== *)
(** ** Further facts about strings *)
(* ===================================================================== *)

Lemma append_nil (b : string) : EmptyString +:+ b = b.
Proof. reflexivity. Qed.

Lemma append_cons (x : ascii) (a b : string) :
  String x a +:+ b = String x (a +:+ b).
Proof. reflexivity. Qed.

Ltac sapp := rewrite ?append_cons, ?append_nil.



Lemma append_empty_r (a : string) : a +:+ EmptyString = a.
Proof. induction a as [|x a IH]; sapp; [reflexivity|]. f_equal. exact IH. Qed.

Lemma strip_prefix_app (a b : string) : PyStr.strip_prefix a (a +:+ b) = Some b.
Proof.
  induction a as [|c a IH]; sapp; simpl; [reflexivity|].
  rewrite Ascii.eqb_refl. exact IH.
Qed.

Lemma startswith_app (a b : string) : PyStr.startswith (a +:+ b) a = true.
Proof. unfold PyStr.startswith. rewrite strip_prefix_app. reflexivity. Qed.

Lemma lstrip_not_sep (s : string) :
  PyStr.startswith (PyStr.lstrip_char "/"%char s) "/" = false.
Proof.
  induction s as [|c s IH]; simpl; [reflexivity|].
  destruct (Ascii.eqb c "/"%char) eqn:E; [exact IH|].
  unfold PyStr.startswith.
  change (PyStr.strip_prefix "/" (String c s))
    with (if Ascii.eqb "/"%char c then Some s else None).
  rewrite Ascii.eqb_sym, E. reflexivity.
Qed.

Lemma length_drop n s :
  String.length (PyStr.drop n s) = (String.length s - n)%nat.
Proof. revert s; induction n as [|n IH]; intros [|c s]; simpl; auto. Qed.

Lemma drop_all n s : (String.length s <= n)%nat -> PyStr.drop n s = EmptyString.
Proof.
  revert s; induction n as [|n IH]; intros [|c s]; simpl; intros H; auto; try lia.
  apply IH. lia.
Qed.

Lemma drop_drop a b s : PyStr.drop b (PyStr.drop a s) = PyStr.drop (a + b) s.
Proof.
  revert s; induction a as [|a IH]; intros s; simpl; [reflexivity|].
  destruct s as [|c s]; [destruct b; reflexivity|]. apply IH.
Qed.

Lemma take_take_drop a b s :
  PyStr.take (a + b) s = PyStr.take a s +:+ PyStr.take b (PyStr.drop a s).
Proof.
  revert s; induction a as [|a IH]; intros s; simpl; [reflexivity|].
  destruct s as [|c s]; simpl; sapp; [destruct b; reflexivity|].
  f_equal. apply IH.
Qed.

Lemma take_min n s : PyStr.take n s = PyStr.take (Nat.min n (String.length s)) s.
Proof.
  revert s; induction n as [|n IH]; intros [|c s]; simpl; auto.
  f_equal. apply IH.
Qed.

(** A slice with bounds that are not negative is a [take] of a [drop]. *)
Lemma slice_take_drop (s : string) (a l : Z) :
  0 <= a -> 0 <= l ->
  PyStr.slice s a (a + l) = PyStr.take (Z.to_nat l) (PyStr.drop (Z.to_nat a) s).
Proof.
  intros Ha Hl. unfold PyStr.slice, PyStr.clamp, PyStr.len.
  set (n := Z.of_nat (String.length s)).
  destruct (Z.ltb_spec a 0); [lia|]. destruct (Z.ltb_spec (a + l) 0); [lia|].
  destruct (Z.ltb_spec (Z.min a n) (Z.min (a + l) n)) as [Hlt|Hge].
  - assert (Han : a < n) by lia. rewrite (Z.min_l a n) by lia.
    rewrite take_min. rewrite (take_min (Z.to_nat l)).
    f_equal. rewrite length_drop. unfold n in *. lia.
  - destruct (Z_lt_le_dec a n) as [Han|Han].
    + assert (l = 0) by lia. subst l. reflexivity.
    + rewrite drop_all by (unfold n in Han; lia).
      destruct (Z.to_nat l); reflexivity.
Qed.

Lemma last_is_rstrip c s : last_is c (PyStr.rstrip_char c s) = false.
Proof.
  induction s as [|b s IH]; simpl; [reflexivity|].
  destruct (PyStr.rstrip_char c s) as [|b' r] eqn:E.
  - destruct (Ascii.eqb b c) eqn:Eb; simpl; [reflexivity|exact Eb].
  - simpl in *. exact IH.
Qed.

Lemma rstrip_id c s : last_is c s = false -> PyStr.rstrip_char c s = s.
Proof.
  induction s as [|b s IH]; simpl; [reflexivity|].
  destruct s as [|b' s'].
  - intros ->. reflexivity.
  - intros H. rewrite (IH H). reflexivity.
Qed.



Lemma repeat_char_last c k : (0 < k)%nat -> last_is c (PyStr.repeat_char c k) = true.
Proof.
  induction k as [|k IH]; [lia|]. intros _. simpl.
  destruct k as [|k']; simpl; [apply Ascii.eqb_refl|]. apply IH. lia.
Qed.

Lemma last_is_snoc c d s : last_is c (s +:+ String d EmptyString) = Ascii.eqb d c.
Proof.
  induction s as [|b s IH]; sapp; simpl; [reflexivity|].
  destruct (s +:+ String d EmptyString) eqn:E; [destruct s; discriminate|].
  exact IH.
Qed.



Lemma repeat_char_snoc c k :
  PyStr.repeat_char c k +:+ String c EmptyString = PyStr.repeat_char c (S k).
Proof. induction k as [|k IH]; simpl; sapp; [reflexivity|]. f_equal. exact IH. Qed.

(* ===================================================================== *)
(** ** Paths and URLs *)
(* ===================================================================== *)




(** X1: every URL requested begins with the root, the rest being the path
    without its leading separators (after a separator when the root does
    not end with one); so leading separators of a path make no
    difference. *)
Theorem full_path_under_root (partial : string) :
  _full_path partial
  = root +:+ (if String.eqb root "" || PyStr.endswith root "/"
              then EmptyString else "/")
         +:+ PyStr.lstrip_char "/"%char partial
  /\ PyStr.startswith (_full_path partial) root = true
  /\ _full_path (String "/"%char partial) = _full_path partial.
Proof.
  assert (H : _full_path partial
              = root +:+ (if String.eqb root "" || PyStr.endswith root "/"
                          then EmptyString else "/")
                     +:+ PyStr.lstrip_char "/"%char partial).
  { unfold _full_path, os_path.join. rewrite lstrip_not_sep.
    destruct (String.eqb root "" || PyStr.endswith root "/"); reflexivity. }
  split; [exact H|]. split.
  - rewrite H. apply startswith_app.
  - reflexivity.
Qed.

(* ===================================================================== *)
(** ** What [_get] returns, raises and requests *)
(* ===================================================================== *)

Lemma decode_size_raises s u e : decode_size s u = Raise e -> parser_exn e.
Proof.
  unfold decode_size, parser_exn. destruct (String.eqb s "-"); [discriminate|].
  unfold PyFloat.of_string.
  destruct (PyFloat.parse_decimal s 0 None false) as [[n k]|];
    [|intros [= <-]; auto].
  destruct (PyStr.list_index u sizes 0); [|intros [= <-]; auto].
  unfold PyFloat.to_int. destruct (PyFloat.mul _ _); intros [= <-]; auto.
Qed.

Lemma strptime_raises s e : datetime.strptime s = Raise e -> e = ValueError.
Proof.
  unfold datetime.strptime.
  destruct (Re.re_match _ _) as [[rest g]|]; [|intros [= <-]; auto].
  destruct rest; [|intros [= <-]; auto].
  destruct (_ && _); intros [= <-]; auto.
Qed.

Lemma parse_entry_raises line e : parse_entry line = Raise e -> parser_exn e.
Proof.
  unfold parse_entry.
  destruct (Re.re_match _ _) as [[rest mo]|]; [|intros [= <-]; left; auto].
  destruct (negb _); [intros [= <-]; left; auto|].
  destruct (negb _); [intros [= <-]; left; auto|].
  destruct (datetime.strptime _) as [mt|e'|] eqn:Et; [| |discriminate].
  - destruct (decode_size _ _) as [sz|e'|] eqn:Es; try discriminate.
    intros [= <-]. eapply decode_size_raises. exact Es.
  - intros [= <-]. apply strptime_raises in Et. subst. right; right; left; auto.
Qed.

Lemma parse_entries_raises ls : forall acc e,
  parse_entries ls acc = Raise e -> parser_exn e.
Proof.
  induction ls as [|l ls IH]; intros acc e; simpl; [discriminate|].
  destruct (parse_entry l) as [[name v]|e'|] eqn:El; [apply IH| |discriminate].
  intros [= <-]. eapply parse_entry_raises. exact El.
Qed.

Lemma parse_listing_raises text e :
  _parse_listing text = Raise e -> parser_exn e.
Proof.
  unfold _parse_listing. destruct (negb _); [intros [= <-]; left; auto|].
  destruct (listing_lines text) as [|header rest];
    [intros [= <-]; right; left; auto|].
  destruct (negb _); [intros [= <-]; left; auto|].
  destruct (negb _); [intros [= <-]; left; auto|]. apply parse_entries_raises.
Qed.

Lemma lineage_step n p q :
  In q (lineage n (os_path.dirname p)) -> In q (lineage (S n) p).
Proof. intros H. simpl. right. exact H. Qed.

(** What a call of [_get] returns is never [None] and is what the cache then
    holds for the path; and a [FileNotFoundError] names the path or one of
    its parents, which the cache then records as missing. *)
Lemma get_fuel_outcome n : forall p st r st',
  _get_fuel n p st = (r, st') ->
  (forall v, r = Return v -> v <> VNone /\ _cache st' !! p = Some v)
  /\ (forall q, r = Raise (FileNotFoundError q) ->
        _cache st' !! q = Some VNone /\ In q (lineage n p)).
Proof.
  induction n as [|n IH]; intros p st r st' H.
  { simpl in H. injection H as <- <-. split; intros ? [=]. }
  pose proof (get_fuel_inv _ _ _ _ _ H) as (_ & _ & Hret).
  simpl in H.
  destruct (_cache st !! p) as [v0|] eqn:Hc.
  { destruct v0; injection H as <- <-; (split; [intros v [= <-]|intros q [=]]);
      try (split; [discriminate|assumption]).
    subst q. split; [exact Hc | left; reflexivity]. }
  destruct (status_code _ =? 404).
  { injection H as <- <-. split; [intros v [=]|]. intros q [= <-].
    split; [simpl; apply lookup_insert_eq | left; reflexivity]. }
  destruct (negb _); [injection H as <- <-; split; intros ? [=]|].
  destruct (PyStr.startswith _ _).
  { destruct (_parse_listing _) as [d|e|] eqn:Ep.
    - unfold cache_lookup in H. simpl in H. rewrite lookup_insert_eq in H.
      injection H as <- <-. split; [|intros ? [=]].
      intros v [= <-]. split; [discriminate|]. simpl. apply lookup_insert_eq.
    - injection H as <- <-. split; [intros v [=]|]. intros q [= ->].
      apply parse_listing_raises in Ep. destruct Ep as [|[|[|]]]; discriminate.
    - injection H as <- <-. split; intros ? [=]. }
  set (st2 := set_cache (log_get st p) p _) in *.
  assert (Hp2 : exists b, _cache st2 !! p = Some (VBytes b))
    by (eexists; unfold st2; simpl; apply lookup_insert_eq).
  destruct Hp2 as [b Hp2].
  destruct (_get_fuel n (os_path.dirname p) st2) as [r3 st3] eqn:Hrec.
  pose proof (get_fuel_inv _ _ _ _ _ Hrec) as (E3 & _ & R3).
  apply IH in Hrec as [_ Hfnf].
  destruct r3 as [pardir|e|].
  - specialize (R3 pardir eq_refl).
    assert (Hnot : forall st4, (Raise TypeError : outcome value, st4) = (r, st') ->
              (forall v, r = Return v -> v <> VNone /\ _cache st' !! p = Some v)
              /\ (forall q, r = Raise (FileNotFoundError q) ->
                    _cache st' !! q = Some VNone /\ In q (lineage (S n) p))).
    { intros st4 [= <- <-]. split; intros ? [=]. }
    destruct pardir as [|d|b']; [eapply Hnot; exact H| |eapply Hnot; exact H].
    destruct (od_get d (os_path.basename p)) as [[[icon size_] mtime]|] eqn:Hd.
    + unfold cache_lookup in H.
      destruct (_cache (set_cache st3 _ _) !! p) as [v|] eqn:Hv;
        injection H as <- <-; [|split; intros ? [=]].
      split; [|intros ? [=]].
      intros v' [= <-]. split; [|exact Hv].
      destruct (E3 _ _ Hp2) as [(v3 & Hv3 & Hev) _].
      simpl in Hv. destruct (decide (os_path.dirname p = p)) as [Heq|Hne].
      * rewrite Heq, lookup_insert_eq in Hv. injection Hv as <-. discriminate.
      * rewrite lookup_insert_ne in Hv by exact Hne.
        rewrite Hv in Hv3. injection Hv3 as <-.
        destruct v; simpl in Hev; try tauto; discriminate.
    + injection H as <- <-. split; intros ? [=].
  - injection H as <- <-. split; [intros ? [=]|].
    intros q [= ->]. destruct (Hfnf q eq_refl) as [Hq Hin].
    split; [exact Hq | right; exact Hin].
  - injection H as <- <-. split; intros ? [=].
Qed.

(** The requests of one call: the paths requested get strictly shorter,
    none is longer than the path looked up, each is the path or one of its
    parents, and none had its slot populated. *)
Lemma get_fuel_requests n : forall p st r st',
  _get_fuel n p st = (r, st') ->
  exists l,
    gets st' = (gets st ++ l)%list
    /\ StronglySorted (fun a b => String.length b < String.length a)%nat l
    /\ Forall (fun q => String.length q <= String.length p)%nat l
    /\ Forall (fun q => _cache st !! q = None) l
    /\ incl l (lineage n p).
Proof.
  induction n as [|n IH]; intros p st r st' H; simpl in H.
  { injection H as <- <-. exists []. rewrite app_nil_r.
    repeat split; try constructor. intros q []. }
  assert (Hnil : forall m, exists l,
            gets st = (gets st ++ l)%list
            /\ StronglySorted (fun a b => String.length b < String.length a)%nat l
            /\ Forall (fun q => String.length q <= String.length p)%nat l
            /\ Forall (fun q => _cache st !! q = None) l
            /\ incl l (lineage m p)).
  { intros m. exists []. rewrite app_nil_r.
    repeat split; try constructor. intros q []. }
  destruct (_cache st !! p) as [v0|] eqn:Hc.
  { destruct v0; injection H as <- <-; apply Hnil. }
  assert (Hone : exists l,
            (gets st ++ [p])%list = (gets st ++ l)%list
            /\ StronglySorted (fun a b => String.length b < String.length a)%nat l
            /\ Forall (fun q => String.length q <= String.length p)%nat l
            /\ Forall (fun q => _cache st !! q = None) l
            /\ incl l (lineage (S n) p)).
  { exists [p]. repeat split.
    - repeat constructor.
    - repeat constructor.
    - repeat constructor. exact Hc.
    - intros q [<-|[]]. left. reflexivity. }
  destruct (status_code _ =? 404); [injection H as <- <-; exact Hone|].
  destruct (negb _); [injection H as <- <-; exact Hone|].
  destruct (PyStr.startswith _ _).
  { destruct (_parse_listing _); try (injection H as <- <-; exact Hone).
    apply cache_lookup_inv in H as [-> _]. exact Hone. }
  set (st2 := set_cache (log_get st p) p _) in *.
  destruct (_get_fuel n (os_path.dirname p) st2) as [r3 st3] eqn:Hrec.
  assert (H3 : exists l,
            gets st3 = (gets st ++ l)%list
            /\ StronglySorted (fun a b => String.length b < String.length a)%nat l
            /\ Forall (fun q => String.length q <= String.length p)%nat l
            /\ Forall (fun q => _cache st !! q = None) l
            /\ incl l (lineage (S n) p)).
  { destruct (dirname_shorter p) as [Heq|Hlt].
    - rewrite Heq in Hrec. destruct n as [|n'].
      + simpl in Hrec. injection Hrec as _ <-. exact Hone.
      + erewrite get_fuel_hit in Hrec
          by (unfold st2; simpl; apply lookup_insert_eq).
        injection Hrec as _ <-. exact Hone.
    - apply IH in Hrec as (l & Hl & Hs & Hb & Hn & Hi).
      exists (p :: l). simpl in Hl. split; [|split; [|split; [|split]]].
      + rewrite Hl, <- app_assoc. reflexivity.
      + constructor; [exact Hs|].
        eapply List.Forall_impl; [|exact Hb]. simpl. intros q Hq. lia.
      + constructor; [lia|].
        eapply List.Forall_impl; [|exact Hb]. simpl. intros q Hq. lia.
      + constructor; [exact Hc|].
        rewrite List.Forall_forall in *. intros q Hq. specialize (Hn q Hq).
        simpl in Hn.
        destruct (decide (p = q)) as [->|Hne].
        * rewrite lookup_insert_eq in Hn. discriminate.
        * rewrite lookup_insert_ne in Hn by exact Hne. exact Hn.
      + intros q [<-|Hq]; [left; reflexivity|]. right. apply Hi. exact Hq. }
  destruct r3 as [[|d|b]|e|]; try (injection H as <- <-; exact H3).
  destruct (od_get d _) as [[[icon size_] mtime]|];
    try (injection H as <- <-; exact H3).
  apply cache_lookup_inv in H as [-> _]. exact H3.
Qed.

Lemma descending_length (l : list string) : forall m,
  StronglySorted (fun a b => String.length b < String.length a)%nat l ->
  Forall (fun q => String.length q <= m)%nat l ->
  (List.length l <= m + 1)%nat.
Proof.
  induction l as [|a l IH]; intros m Hs Hb; simpl; [lia|].
  inversion Hs as [|? ? Hs' Ha]; subst. inversion Hb as [|? ? Ham Hb']; subst.
  destruct l as [|b l']; [simpl; lia|].
  assert (Hlt : (String.length b < String.length a)%nat)
    by (inversion Ha; assumption).
  specialize (IH (String.length a - 1)%nat Hs').
  assert (Hf : Forall (fun q => String.length q <= String.length a - 1)%nat (b :: l')).
  { eapply List.Forall_impl; [|exact Ha]. simpl. intros q Hq. lia. }
  specialize (IH Hf). simpl in *. lia.
Qed.

Lemma descending_NoDup (l : list string) :
  StronglySorted (fun a b => String.length b < String.length a)%nat l ->
  List.NoDup l.
Proof.
  induction 1 as [|a l Hs IH Ha]; constructor; [|exact IH].
  intros Hin. rewrite List.Forall_forall in Ha. specialize (Ha a Hin). lia.
Qed.

(** X2: what [_get] returns is a listing or file content, never [None], and
    is what the cache then holds for the path, so that the lookup repeated
    returns it again without a request; and when [_get] raises
    [FileNotFoundError], the path it names is the path looked up or one of
    its parents, the cache then records it as missing, and the lookup of
    that path raises again without a request. *)
Theorem get_result_recorded p st r st' :
  _get p st = (r, st') ->
  (forall v, r = Return v ->
     v <> VNone /\ _cache st' !! p = Some v /\ _get p st' = (Return v, st'))
  /\ (forall q, r = Raise (FileNotFoundError q) ->
        In q (lineage (String.length p + 2) p)
        /\ _cache st' !! q = Some VNone
        /\ _get q st' = (Raise (FileNotFoundError q), st')).
Proof.
  intros H. apply get_fuel_outcome in H as [Hr Hf]. split.
  - intros v Hv. destruct (Hr v Hv) as [Hn Hc]. split; [exact Hn|].
    split; [exact Hc|]. rewrite (get_hit _ _ _ Hc).
    destruct v; [congruence|reflexivity|reflexivity].
  - intros q Hq. destruct (Hf q Hq) as [Hc Hin]. split; [exact Hin|].
    split; [exact Hc|]. rewrite (get_hit _ _ _ Hc). reflexivity.
Qed.

(** X3: one lookup requests no path twice and at most [len(path) + 1] paths
    in all; each requested path is the path looked up or one of its
    parents, is no longer than it, and had no populated slot before the
    call. *)
Theorem get_requests_bounded p st r st' :
  _get p st = (r, st') ->
  exists l,
    gets st' = (gets st ++ l)%list
    /\ List.NoDup l
    /\ (List.length l <= String.length p + 1)%nat
    /\ Forall (fun q => In q (lineage (String.length p + 2) p)
                        /\ (String.length q <= String.length p)%nat
                        /\ _cache st !! q = None) l.
Proof.
  intros H. apply get_fuel_requests in H as (l & Hl & Hs & Hb & Hn & Hi).
  exists l. split; [exact Hl|]. split; [apply descending_NoDup; exact Hs|].
  split; [eapply descending_length; eassumption|].
  rewrite List.Forall_forall in *. intros q Hq.
  split; [apply Hi; exact Hq|]. split; [apply Hb; exact Hq | apply Hn; exact Hq].
Qed.

Lemma getdent_requests p st r st' :
  _getdent p st = (r, st') ->
  p = "/" \/ os_path.dirname p <> p ->
  exists l,
    gets st' = (gets st ++ l)%list
    /\ Forall (fun q => String.length q < String.length p)%nat l.
Proof.
  unfold _getdent. intros H Hp.
  destruct (String.eqb p "/") eqn:E.
  { injection H as _ <-. exists []. rewrite app_nil_r. split; constructor. }
  assert (Hne : os_path.dirname p <> p).
  { destruct Hp as [->|Hp]; [discriminate|exact Hp]. }
  assert (Hlt : (String.length (os_path.dirname p) < String.length p)%nat).
  { destruct (dirname_shorter p); [contradiction|assumption]. }
  destruct (_get (os_path.dirname p) st) as [r1 st1] eqn:Hg.
  assert (st' = st1) as -> by (repeat case_match; congruence).
  apply get_fuel_requests in Hg as (l & Hl & _ & Hb & _).
  exists l. split; [exact Hl|].
  eapply List.Forall_impl; [|exact Hb]. simpl. intros q Hq. lia.
Qed.

Lemma getattr_state p st : snd (getattr p st) = snd (_getdent p st).
Proof.
  unfold getattr. destruct (_getdent p st) as [r1 st1].
  repeat case_match; reflexivity.
Qed.

Lemma access_state p mode st :
  snd (access p mode st) = st \/ snd (access p mode st) = snd (_getdent p st).
Proof.
  unfold access. destruct (negb _); [left; reflexivity|right].
  destruct (_getdent p st) as [r1 st1]. repeat case_match; reflexivity.
Qed.

(** X4: [getattr] and [access] never request the path they are asked about:
    for the root, and for any path that is not its own parent, every
    request they issue is for a strictly shorter path. *)
Theorem attributes_without_fetching_the_path p st :
  p = "/" \/ os_path.dirname p <> p ->
  (exists l,
     gets (snd (getattr p st)) = (gets st ++ l)%list
     /\ Forall (fun q => String.length q < String.length p)%nat l)
  /\ (forall mode,
        exists l,
          gets (snd (access p mode st)) = (gets st ++ l)%list
          /\ Forall (fun q => String.length q < String.length p)%nat l).
Proof.
  intros Hp.
  destruct (_getdent p st) as [r1 st1] eqn:Hd.
  pose proof (getdent_requests _ _ _ _ Hd Hp) as Hl.
  split.
  - rewrite getattr_state, Hd. exact Hl.
  - intros mode. destruct (access_state p mode st) as [-> | ->].
    + exists []. rewrite app_nil_r. split; constructor.
    + rewrite Hd. exact Hl.
Qed.

(* ===================================================================== *)
(** ** Reading, opening and the read-only contract *)
(* ===================================================================== *)

Lemma read_returns_slice_aux p st b :
  _cache st !! p = Some (VBytes b) ->
  forall l o, 0 <= o -> 0 <= l ->
    read p l o st
    = (Return (PyStr.take (Z.to_nat l) (PyStr.drop (Z.to_nat o) b)), st).
Proof.
  intros Hc l o Ho Hl. unfold read. rewrite (get_hit _ _ _ Hc).
  rewrite slice_take_drop by assumption. reflexivity.
Qed.

(** X5: [read] on a path whose content is cached, with an offset and a
    length that are not negative, returns the bytes from the offset on, at
    most [length] of them and none beyond the end of the content; so it
    returns nothing at or after the end, and the whole content for offset 0
    and the content's length.  The state is unchanged. *)
Theorem read_returns_slice p st b length offset :
  _cache st !! p = Some (VBytes b) ->
  0 <= offset -> 0 <= length ->
  read p length offset st
  = (Return (PyStr.take (Z.to_nat length) (PyStr.drop (Z.to_nat offset) b)), st)
  /\ PyStr.len (PyStr.take (Z.to_nat length) (PyStr.drop (Z.to_nat offset) b))
     = Z.min length (Z.max 0 (PyStr.len b - offset))
  /\ (PyStr.len b <= offset ->
      read p length offset st = (Return EmptyString, st))
  /\ read p (PyStr.len b) 0 st = (Return b, st).
Proof.
  intros Hc Ho Hl.
  pose proof (read_returns_slice_aux p st b Hc) as Hr.
  split; [apply Hr; assumption|]. split; [|split].
  - unfold PyStr.len. rewrite length_take, length_drop. lia.
  - intros He. rewrite Hr by assumption.
    rewrite drop_all by (unfold PyStr.len in He; lia).
    destruct (Z.to_nat length); reflexivity.
  - rewrite Hr by (unfold PyStr.len; lia). simpl.
    rewrite take_all; [reflexivity|]. unfold PyStr.len. lia.
Qed.

(** X6: two reads that follow each other return, joined, what one read of
    both lengths returns: a file can be read in pieces of any sizes. *)
Theorem read_consecutive p st b offset length1 length2 :
  _cache st !! p = Some (VBytes b) ->
  0 <= offset -> 0 <= length1 -> 0 <= length2 ->
  exists data1 data2,
    read p length1 offset st = (Return data1, st)
    /\ read p length2 (offset + length1) st = (Return data2, st)
    /\ read p (length1 + length2) offset st = (Return (data1 +:+ data2), st).
Proof.
  intros Hc Ho H1 H2.
  pose proof (read_returns_slice_aux p st b Hc) as Hr.
  exists (PyStr.take (Z.to_nat length1) (PyStr.drop (Z.to_nat offset) b)),
         (PyStr.take (Z.to_nat length2)
            (PyStr.drop (Z.to_nat (offset + length1)) b)).
  rewrite !Hr by lia. split; [reflexivity|]. split; [reflexivity|].
  rewrite Z2Nat.inj_add by lia. rewrite take_take_drop, drop_drop.
  rewrite Z2Nat.inj_add by lia. reflexivity.
Qed.

Lemma getdent_state_fd p st : fd (snd (_getdent p st)) = fd st.
Proof.
  destruct (_getdent p st) as [r st'] eqn:H.
  apply getdent_inv in H as [_ H]. exact H.
Qed.

Lemma get_state_fd p st : fd (snd (_get p st)) = fd st.
Proof.
  destruct (_get p st) as [r st'] eqn:H.
  apply get_inv in H as (_ & H & _). exact H.
Qed.

(** What a successful [open] has done. *)
Lemma open_inv p flags st h st' :
  open p flags st = (Return h, st') ->
  Z.land flags (Z.lnot O_LARGEFILE) = os.O_RDONLY
  /\ h = fd st + 1 /\ fd st' = h
  /\ exists b, _cache st' !! p = Some (VBytes b).
Proof.
  unfold open.
  destruct (Z.eqb_spec (Z.land flags (Z.lnot O_LARGEFILE)) os.O_RDONLY) as [Hf|];
    [|discriminate]. simpl.
  destruct (_get p st) as [r st1] eqn:Hg.
  pose proof (get_state_fd p st) as Hfd. rewrite Hg in Hfd. simpl in Hfd.
  apply get_fuel_outcome in Hg as [Hr _].
  destruct r as [v|e|]; [|destruct e; discriminate|discriminate].
  destruct (Hr v eq_refl) as [Hn Hc].
  destruct v as [|d|b]; [congruence|discriminate|]. simpl.
  intros [= <- <-]. simpl. repeat split; try lia. exists b. exact Hc.
Qed.

Lemma open_state_fd p flags st : fd st <= fd (snd (open p flags st)).
Proof.
  unfold open. destruct (negb _); [simpl; lia|].
  pose proof (get_state_fd p st) as Hfd.
  destruct (_get p st) as [r st1]. simpl in Hfd.
  repeat case_match; simpl; lia.
Qed.

(** The handle counter never goes down. *)
Lemma run_call_fd c st : fd st <= fd (run_call c st).
Proof.
  destruct c; simpl; try lia.
  - destruct (access_state path mode st) as [-> | ->];
      [lia | rewrite getdent_state_fd; lia].
  - rewrite getattr_state, getdent_state_fd. lia.
  - unfold readdir. pose proof (get_state_fd path st) as Hfd.
    destruct (_get path st) as [r st1]. simpl in Hfd.
    repeat case_match; simpl; lia.
  - apply open_state_fd.
  - unfold read. pose proof (get_state_fd path st) as Hfd.
    destruct (_get path st) as [r st1]. simpl in Hfd.
    repeat case_match; simpl; lia.
Qed.

Lemma run_calls_fd cs : forall st, fd st <= fd (run_calls cs st).
Proof.
  unfold run_calls. induction cs as [|c cs IH]; intros st; simpl; [lia|].
  pose proof (run_call_fd c st). specialize (IH (run_call c st)). lia.
Qed.

(** X7: a successful [open] returns the handle counter plus one and leaves
    the counter at the handle returned, the path being cached file content
    opened read-only; so, whatever calls of whatever methods come in
    between, a later successful [open] returns a strictly larger handle. *)
Theorem handles_strictly_increase p flags st h st1 :
  open p flags st = (Return h, st1) ->
  h = fd st + 1 /\ fd st1 = h
  /\ Z.land flags (Z.lnot O_LARGEFILE) = os.O_RDONLY
  /\ (exists b, _cache st1 !! p = Some (VBytes b))
  /\ forall cs p' flags' h' st2,
       open p' flags' (run_calls cs st1) = (Return h', st2) -> h < h'.
Proof.
  intros H. apply open_inv in H as (Hf & Hh & Hfd & Hb).
  repeat split; try assumption.
  intros cs p' flags' h' st2 H'. apply open_inv in H' as (_ & Hh' & _).
  pose proof (run_calls_fd cs st1). lia.
Qed.

(** Every method keeps what the cache holds. *)
Lemma run_call_extends c st : extends st (run_call c st).
Proof.
  destruct c; simpl; try apply extends_refl.
  - apply (run_op_extends (OpAccess path mode)).
  - apply (run_op_extends (OpGetattr path)).
  - apply (run_op_extends (OpReaddir path)).
  - apply (run_op_extends (OpOpen path flags)).
  - apply (run_op_extends (OpRead path length offset)).
Qed.

Lemma run_calls_extends cs : forall st, extends st (run_calls cs st).
Proof.
  unfold run_calls.
  induction cs as [|c cs IH]; intros st; simpl; [apply extends_refl|].
  eapply extends_trans; [apply run_call_extends | apply IH].
Qed.

Lemma dent_patch_keys d d' : Forall2 dent_patch d d' -> od_keys d' = od_keys d.
Proof.
  unfold od_keys. induction 1 as [|[k [[i s] m]] [k' [[i' s'] m']] d d' H _ IH];
    simpl; [reflexivity|].
  destruct H as (-> & _). f_equal. exact IH.
Qed.

(** X8: the filesystem is read-only.  Through any sequence of calls of any
    of the methods ([write], [truncate], [unlink], [rename], [mkdir] and the
    others included), a cached file keeps its content, byte for byte, a
    cached directory keeps its names, in their order, and a path recorded
    as missing stays missing. *)
Theorem content_never_changes cs p st :
  (forall b, _cache st !! p = Some (VBytes b) ->
     _cache (run_calls cs st) !! p = Some (VBytes b)
     /\ forall length offset,
          read p length offset (run_calls cs st)
          = (Return (PyStr.slice b offset (offset + length)), run_calls cs st))
  /\ (forall d, _cache st !! p = Some (VOrderedDict d) ->
        readdir p (run_calls cs st)
        = (Return ("." :: ".." :: od_keys d), run_calls cs st))
  /\ (_cache st !! p = Some VNone ->
      _get p (run_calls cs st) = (Raise (FileNotFoundError p), run_calls cs st)).
Proof.
  pose proof (run_calls_extends cs st) as E.
  split; [|split].
  - intros b Hc. destruct (E _ _ Hc) as [(v' & Hv' & Hev) _].
    destruct v' as [|d'|b']; simpl in Hev; try tauto. subst b'.
    split; [exact Hv'|]. intros length offset.
    unfold read. rewrite (get_hit _ _ _ Hv'). reflexivity.
  - intros d Hc. destruct (E _ _ Hc) as [(v' & Hv' & Hev) _].
    destruct v' as [|d'|b']; simpl in Hev; try tauto.
    unfold readdir. rewrite (get_hit _ _ _ Hv').
    rewrite (dent_patch_keys _ _ Hev). reflexivity.
  - intros Hc. destruct (E _ _ Hc) as [(v' & Hv' & Hev) _].
    destruct v' as [|d'|b']; simpl in Hev; try tauto.
    rewrite (get_hit _ _ _ Hv'). reflexivity.
Qed.

(* ===================================================================== *)
(** ** Sizes are never negative *)
(* ===================================================================== *)

Lemma binary_round_aux_nonneg m e l :
  float_nonneg (binary_round_aux PyFloat.prec PyFloat.emax false m e l) = true.
Proof.
  unfold binary_round_aux.
  destruct (shr_fexp _ _ m e l) as [mrs' e'].
  destruct (shr_fexp _ _ _ e' loc_Exact) as [mrs'' e''].
  destruct (shr_m mrs''); [reflexivity| |reflexivity].
  destruct (Z.leb _ _); reflexivity.
Qed.

Lemma binary_normalize_nonneg m e :
  0 <= m ->
  float_nonneg (binary_normalize PyFloat.prec PyFloat.emax m e false) = true.
Proof.
  intros Hm. unfold binary_normalize. destruct m as [|m|m]; [reflexivity| |lia].
  unfold binary_round. destruct (shl_align _ _ _) as [mz ez].
  apply binary_round_aux_nonneg.
Qed.

Lemma of_decimal_nonneg n k : float_nonneg (PyFloat.of_decimal n k) = true.
Proof.
  unfold PyFloat.of_decimal. destruct n as [|m|m]; try reflexivity.
  unfold SFdiv. destruct (SFdiv_core_binary _ _ _ _ _ _) as [[mz ez] lz].
  apply binary_round_aux_nonneg.
Qed.

Lemma add_nonneg x y :
  float_nonneg x = true -> float_nonneg y = true ->
  float_nonneg (PyFloat.add x y) = true.
Proof.
  unfold PyFloat.add, SFadd.
  destruct x as [sx|sx| |sx mx ex], y as [sy|sy| |sy my ey]; simpl;
    intros Hx Hy; try reflexivity;
    try (apply negb_true_iff in Hx; subst sx);
    try (apply negb_true_iff in Hy; subst sy); try reflexivity.
  apply binary_normalize_nonneg. simpl. lia.
Qed.

Lemma mul_nonneg x y :
  float_nonneg x = true -> float_nonneg y = true ->
  float_nonneg (PyFloat.mul x y) = true.
Proof.
  unfold PyFloat.mul, SFmul.
  destruct x as [sx|sx| |sx mx ex], y as [sy|sy| |sy my ey]; simpl;
    intros Hx Hy; try reflexivity;
    try (apply negb_true_iff in Hx; subst sx);
    try (apply negb_true_iff in Hy; subst sy); try reflexivity.
  apply binary_round_aux_nonneg.
Qed.

Lemma to_int_nonneg f z :
  float_nonneg f = true -> PyFloat.to_int f = Return z -> 0 <= z.
Proof.
  destruct f as [s|s| |s m e]; simpl; intros Hf; try discriminate.
  - intros [= <-]. lia.
  - apply negb_true_iff in Hf. subst s. intros [= <-]. simpl.
    apply Z.shiftl_nonneg. lia.
Qed.

Lemma decode_size_nonneg s u z : decode_size s u = Return z -> 0 <= z.
Proof.
  unfold decode_size. destruct (String.eqb s "-"); [intros [= <-]; lia|].
  unfold PyFloat.of_string.
  destruct (PyFloat.parse_decimal s 0 None false) as [[n k]|]; [|discriminate].
  destruct (PyStr.list_index u sizes 0) as [i|]; [|discriminate].
  apply to_int_nonneg. apply mul_nonneg.
  - apply add_nonneg; [reflexivity | apply of_decimal_nonneg].
  - apply binary_normalize_nonneg. apply Z.pow_nonneg. lia.
Qed.

Lemma od_set_sizes d k v :
  od_sizes_nonneg d -> 0 <= snd (fst v) -> od_sizes_nonneg (od_set d k v).
Proof.
  unfold od_sizes_nonneg. induction 1 as [|[k' v'] d Hv Hd IH]; simpl; intros Hz.
  - repeat constructor. exact Hz.
  - destruct (String.eqb k' k); constructor; auto.
Qed.

(* ===================================================================== *)
(** ** The parser on any page, repeated names included *)
(* ===================================================================== *)

Lemma od_get_od_set d k v n :
  od_get (od_set d k v) n = if String.eqb k n then Some v else od_get d n.
Proof.
  induction d as [|[k' v'] d IH]; simpl; [reflexivity|].
  destruct (String.eqb k' k) eqn:E; simpl.
  - apply String.eqb_eq in E. subst k'. destruct (String.eqb k n); reflexivity.
  - rewrite IH. destruct (String.eqb k' n) eqn:E'; [|reflexivity].
    apply String.eqb_eq in E'. subst k'.
    destruct (String.eqb k n) eqn:E''; [|reflexivity].
    apply String.eqb_eq in E''. subst k. rewrite String.eqb_refl in E.
    discriminate.
Qed.

Lemma od_keys_od_set d k v :
  od_keys (od_set d k v)
  = if in_dec string_dec k (od_keys d) then od_keys d
    else (od_keys d ++ [k])%list.
Proof.
  unfold od_keys. induction d as [|[k' v'] d IH]; simpl; [reflexivity|].
  destruct (String.eqb k' k) eqn:E; simpl.
  - apply String.eqb_eq in E. subst k'.
    destruct (string_dec k k); [reflexivity|congruence].
  - apply String.eqb_neq in E. rewrite IH.
    destruct (string_dec k' k); [congruence|].
    destruct (in_dec string_dec k (map fst d)); reflexivity.
Qed.

Lemma od_set_NoDup d k v :
  List.NoDup (od_keys d) -> List.NoDup (od_keys (od_set d k v)).
Proof.
  intros H. rewrite od_keys_od_set.
  destruct (in_dec string_dec k (od_keys d)) as [Hin|Hn]; [exact H|].
  apply NoDup_app_remove_l with (l := []). simpl.
  apply List.NoDup_rev in H.
  rewrite <- (rev_involutive (od_keys d ++ [k])%list).
  apply List.NoDup_rev. rewrite rev_app_distr. simpl.
  constructor; [|exact H]. rewrite <- in_rev. exact Hn.
Qed.

Lemma od_set_In d k v n :
  In n (od_keys (od_set d k v)) <-> n = k \/ In n (od_keys d).
Proof.
  rewrite od_keys_od_set.
  destruct (in_dec string_dec k (od_keys d)) as [Hin|Hn].
  - split; [auto|]. intros [->|H]; assumption.
  - rewrite in_app_iff. simpl. split; [intros [H|[<-|[]]]; auto|].
    intros [->|H]; auto.
Qed.

(** Every entry of a dictionary built by [od_set] is one of the pairs that
    were stored. *)
Lemma od_set_entries (P : string * dent -> Prop) d k v :
  Forall P d -> P (k, v) -> Forall P (od_set d k v).
Proof.
  induction 1 as [|[k' v'] d Hv Hd IH]; simpl; intros Hp.
  - repeat constructor. exact Hp.
  - destruct (String.eqb k' k) eqn:E; constructor; auto.
    apply String.eqb_eq in E. subst k'. exact Hp.
Qed.

Lemma od_get_app_one (l : OrderedDict) e n :
  od_get (l ++ [e])%list n
  = match od_get l n with
    | Some v => Some v
    | None => if String.eqb (fst e) n then Some (snd e) else None
    end.
Proof.
  induction l as [|[k v] l IH]; simpl.
  - destruct e as [k v]. reflexivity.
  - destruct (String.eqb k n); [reflexivity|exact IH].
Qed.

Lemma od_set_all_get es : forall acc n,
  od_get (od_set_all es acc) n
  = match od_get (rev es) n with
    | Some v => Some v
    | None => od_get acc n
    end.
Proof.
  unfold od_set_all.
  induction es as [|e es IH]; intros acc n; simpl; [reflexivity|].
  rewrite IH, od_get_app_one, od_get_od_set.
  destruct (od_get (rev es) n); [reflexivity|].
  destruct (String.eqb (fst e) n); reflexivity.
Qed.

Lemma od_set_all_NoDup es : forall acc,
  List.NoDup (od_keys acc) -> List.NoDup (od_keys (od_set_all es acc)).
Proof.
  unfold od_set_all.
  induction es as [|e es IH]; intros acc H; simpl; [exact H|].
  apply IH. apply od_set_NoDup. exact H.
Qed.

Lemma od_set_all_In es : forall acc n,
  In n (od_keys (od_set_all es acc)) <-> In n (map fst es) \/ In n (od_keys acc).
Proof.
  unfold od_set_all.
  induction es as [|e es IH]; intros acc n; simpl; [tauto|].
  rewrite IH, od_set_In. intuition congruence.
Qed.

Lemma od_set_all_entries (P : string * dent -> Prop) es : forall acc,
  Forall P acc -> Forall P es -> Forall P (od_set_all es acc).
Proof.
  unfold od_set_all.
  induction es as [|[k v] es IH]; intros acc Ha He; simpl; [exact Ha|].
  inversion He; subst. apply IH; [|assumption].
  apply od_set_entries; assumption.
Qed.

(** The loop of the parser stores what the lines parse to, in turn. *)
Lemma parse_entries_all ls : forall acc d,
  parse_entries ls acc = Return d ->
  exists es,
    Forall2 (fun line e => parse_entry line = Return e) ls es
    /\ d = od_set_all es acc.
Proof.
  induction ls as [|l ls IH]; intros acc d; simpl.
  - intros [= <-]. exists []. split; [constructor|reflexivity].
  - destruct (parse_entry l) as [[name v]|e|] eqn:El; try discriminate.
    intros H. apply IH in H as (es & Hes & ->).
    exists ((name, v) :: es). split; [constructor; assumption|reflexivity].
Qed.

(** The shape of what a line parses to. *)
Lemma parse_entry_shape line name icon size mtime :
  parse_entry line = Return (name, (icon, size, mtime)) ->
  name = entry_name line
  /\ last_is "/"%char name = false
  /\ 0 <= size
  /\ (icon = "DIR" <-> PyStr.endswith (anchor_text line) "/" = true).
Proof.
  intros H. pose proof (parse_entry_name _ _ _ H) as Hn.
  apply parse_entry_inv in H as (rest & mo & Hm & Hname & _ & _ & Hdir & _ & Hs).
  split; [exact Hn|]. split; [rewrite Hname; apply last_is_rstrip|].
  split; [eapply decode_size_nonneg; exact Hs|].
  unfold anchor_text. rewrite Hm, Hdir. apply iff_sym, String.eqb_eq.
Qed.

(** X9: on any page the parser accepts, names that repeat included: every
    entry line parses; looking a name up in the mapping gives what the last
    line with that name parses to; the names of the mapping are those of
    the lines, each once; and every entry of the mapping is what one of the
    lines parses to, so that its name has no trailing separator, its size
    is not negative and its icon is DIR exactly when the anchor text of
    that line ends with a separator. *)
Theorem parse_listing_last_wins text d :
  _parse_listing text = Return d ->
  exists es,
    Forall2 (fun line e => parse_entry line = Return e)
            (entry_lines (listing_lines text)) es
    /\ d = od_set_all es []
    /\ (forall n, od_get d n = od_get (rev es) n)
    /\ List.NoDup (od_keys d)
    /\ (forall n, In n (od_keys d)
                  <-> In n (map entry_name (entry_lines (listing_lines text))))
    /\ Forall (fun e =>
                 exists line,
                   In line (entry_lines (listing_lines text))
                   /\ parse_entry line = Return e
                   /\ last_is "/"%char (fst e) = false
                   /\ 0 <= snd (fst (snd e))
                   /\ (fst (fst (snd e)) = "DIR"
                       <-> PyStr.endswith (anchor_text line) "/" = true)) d.
Proof.
  intros H. apply parse_listing_entries in H.
  apply parse_entries_all in H as (es & Hes & ->).
  exists es. split; [exact Hes|]. split; [reflexivity|]. split; [|split; [|split]].
  - intros n. rewrite od_set_all_get. destruct (od_get (rev es) n); reflexivity.
  - apply od_set_all_NoDup. constructor.
  - intros n. rewrite od_set_all_In. simpl.
    assert (Hk : map fst es = map entry_name (entry_lines (listing_lines text))).
    { clear -Hes. induction Hes as [|l [k v] ls es' Hl _ IH]; simpl;
        [reflexivity|]. f_equal; [|exact IH]. exact (parse_entry_name _ _ _ Hl). }
    rewrite Hk. tauto.
  - apply od_set_all_entries; [constructor|].
    clear -Hes. induction Hes as [|l [k [[i s] m]] ls es' Hl _ IH];
      constructor.
    + exists l. destruct (parse_entry_shape _ _ _ _ _ Hl) as (_ & H1 & H2 & H3).
      simpl. repeat split; auto; try (left; reflexivity); apply H3.
    + eapply List.Forall_impl; [|exact IH]. simpl.
      intros e (line & Hin & Hrest). exists line. split; [right; exact Hin|].
      exact Hrest.
Qed.

Lemma parse_listing_sizes text d :
  _parse_listing text = Return d -> od_sizes_nonneg d.
Proof.
  intros H. apply parse_listing_entries in H.
  apply parse_entries_all in H as (es & Hes & ->).
  apply od_set_all_entries; [constructor|].
  induction Hes as [|l [k [[i s] m]] ls es' Hl _ IH]; constructor; [|exact IH].
  simpl. apply (parse_entry_shape _ _ _ _ _ Hl).
Qed.

Lemma sizes_nonneg_set st p v :
  sizes_nonneg st ->
  (forall d, v = VOrderedDict d -> od_sizes_nonneg d) ->
  sizes_nonneg (set_cache st p v).
Proof.
  intros Hs Hv q d. simpl. destruct (decide (p = q)) as [->|Hne].
  - rewrite lookup_insert_eq. intros [= ->]. apply Hv. reflexivity.
  - rewrite lookup_insert_ne by exact Hne. apply Hs.
Qed.

Lemma od_get_In d k v : od_get d k = Some v -> In (k, v) d.
Proof.
  induction d as [|[k' v'] d IH]; simpl; [discriminate|].
  destruct (String.eqb k' k) eqn:E.
  - apply String.eqb_eq in E. subst k'. intros [= ->]. left. reflexivity.
  - intros H. right. apply IH. exact H.
Qed.


Lemma get_fuel_sizes n : forall p st r st',
  sizes_nonneg st -> _get_fuel n p st = (r, st') -> sizes_nonneg st'.
Proof.
  induction n as [|n IH]; intros p st r st' Hs H; simpl in H.
  { injection H as _ <-. exact Hs. }
  destruct (_cache st !! p) as [v0|] eqn:Hc.
  { destruct v0; injection H as _ <-; exact Hs. }
  assert (Hs1 : sizes_nonneg (log_get st p)) by exact Hs.
  destruct (status_code _ =? 404).
  { injection H as _ <-. apply sizes_nonneg_set; [exact Hs1|discriminate]. }
  destruct (negb _); [injection H as _ <-; exact Hs1|].
  destruct (PyStr.startswith _ _).
  { destruct (_parse_listing _) as [d|e|] eqn:Ep;
      try (injection H as _ <-; exact Hs1).
    apply cache_lookup_inv in H as [-> _].
    apply sizes_nonneg_set; [exact Hs1|]. intros d' [= <-].
    eapply parse_listing_sizes. exact Ep. }
  set (st2 := set_cache (log_get st p) p _) in *.
  assert (Hs2 : sizes_nonneg st2)
    by (apply sizes_nonneg_set; [exact Hs1|discriminate]).
  destruct (_get_fuel n (os_path.dirname p) st2) as [r3 st3] eqn:Hrec.
  pose proof (get_fuel_inv _ _ _ _ _ Hrec) as (_ & _ & R3).
  apply (IH _ _ _ _ Hs2) in Hrec.
  destruct r3 as [[|d|b]|e|]; try (injection H as _ <-; exact Hrec).
  destruct (od_get d _) as [[[icon size_] mtime]|] eqn:Hd;
    try (injection H as _ <-; exact Hrec).
  apply cache_lookup_inv in H as [-> _].
  apply sizes_nonneg_set; [exact Hrec|]. intros d' [= <-].
  apply od_set_sizes; [|simpl; unfold PyStr.len; lia].
  eapply Hrec. apply R3. reflexivity.
Qed.

Lemma getdent_sizes p st r st' :
  sizes_nonneg st -> _getdent p st = (r, st') ->
  sizes_nonneg st'
  /\ forall icon size mtime, r = Return (icon, size, mtime) -> 0 <= size.
Proof.
  intros Hs. unfold _getdent. destruct (String.eqb p "/").
  { intros [= <- <-]. split; [exact Hs|]. intros ? ? ? [= <- <- <-]. lia. }
  destruct (_get (os_path.dirname p) st) as [r1 st1] eqn:Hg.
  pose proof (get_inv _ _ _ _ Hg) as (_ & _ & R).
  apply (get_fuel_sizes _ _ _ _ _ Hs) in Hg. intros H.
  assert (st' = st1) as -> by (repeat case_match; congruence).
  split; [exact Hg|]. intros icon size mtime ->.
  destruct r1 as [[|d|b]|e|]; try discriminate; [|destruct e; discriminate].
  destruct (od_get d (os_path.basename p)) as [e|] eqn:Hd; [|discriminate].
  injection H as ->. apply od_get_In in Hd.
  specialize (Hg _ _ (R _ eq_refl)). unfold od_sizes_nonneg in Hg.
  rewrite List.Forall_forall in Hg. exact (Hg _ Hd).
Qed.

Lemma run_call_sizes c st : sizes_nonneg st -> sizes_nonneg (run_call c st).
Proof.
  intros Hs. destruct c; simpl; try exact Hs.
  - destruct (access_state path mode st) as [-> | ->]; [exact Hs|].
    destruct (_getdent path st) eqn:H. eapply getdent_sizes; eassumption.
  - rewrite getattr_state.
    destruct (_getdent path st) eqn:H. eapply getdent_sizes; eassumption.
  - unfold readdir. destruct (_get path st) as [r st1] eqn:Hg.
    apply (get_fuel_sizes _ _ _ _ _ Hs) in Hg.
    repeat case_match; simpl; exact Hg.
  - unfold open. destruct (negb _); [exact Hs|].
    destruct (_get path st) as [r st1] eqn:Hg.
    apply (get_fuel_sizes _ _ _ _ _ Hs) in Hg.
    repeat case_match; simpl; exact Hg.
  - unfold read. destruct (_get path st) as [r st1] eqn:Hg.
    apply (get_fuel_sizes _ _ _ _ _ Hs) in Hg.
    repeat case_match; simpl; exact Hg.
Qed.

Lemma run_calls_sizes cs : forall st,
  sizes_nonneg st -> sizes_nonneg (run_calls cs st).
Proof.
  unfold run_calls. induction cs as [|c cs IH]; intros st Hs; simpl; [exact Hs|].
  apply IH. apply run_call_sizes. exact Hs.
Qed.

(** X10: from a state whose cached listings have no negative size, the fresh
    state of the object being one, what [getattr] returns after any
    sequence of calls, for any path and any server, has a size that is not
    negative and the attributes of a read-only directory (mode 0o40555, two
    links) or of a read-only regular file (mode 0o100444, one link), so
    that no write permission bit is set; the owner is the user and group of
    the object and the three times are equal. *)
Theorem attributes_read_only_and_sized cs p st s st' :
  sizes_nonneg st ->
  getattr p (run_calls cs st) = (Return s, st') ->
  0 <= st_size s
  /\ ((st_mode s = 16749 /\ st_nlink s = 2)
      \/ (st_mode s = 33060 /\ st_nlink s = 1))
  /\ Z.land (st_mode s) 146 = 0
  /\ st_uid s = uid /\ st_gid s = gid
  /\ st_atime s = st_mtime s /\ st_ctime s = st_mtime s
  /\ sizes_nonneg st'.
Proof.
  intros Hs H. apply (run_calls_sizes cs) in Hs.
  unfold getattr in H.
  destruct (_getdent p (run_calls cs st)) as [r st1] eqn:Hd.
  apply (getdent_sizes _ _ _ _ Hs) in Hd as [Hs1 Hz].
  destruct r as [[[icon size] mtime]|e|]; [|destruct e; discriminate|discriminate].
  injection H as <- <-. simpl. split; [eapply Hz; reflexivity|].
  destruct (String.eqb icon "DIR"); simpl; repeat split; auto.
Qed.




(* ===================================================================== *)
(** ** Missing paths and malformed listings *)
(* ===================================================================== *)

(** X13: when the fetch of an uncached path answers 200 with a body that has
    the signature of a listing but that the parser rejects, [_get] raises
    the parser's exception (an [AssertionError], [IndexError], [ValueError]
    or [OverflowError], never a [FuseOSError] or [FileNotFoundError]),
    nothing is stored in the cache, and [readdir], [open] and [read] let
    the exception through as it is. *)
Theorem malformed_listing_not_cached p st e :
  _cache st !! p = None ->
  status_code (server (map _full_path (gets st)) (_full_path p)) = 200 ->
  PyStr.startswith (content (server (map _full_path (gets st)) (_full_path p)))
                   LISTING = true ->
  _parse_listing (text (server (map _full_path (gets st)) (_full_path p)))
  = Raise e ->
  parser_exn e
  /\ _get p st = (Raise e, log_get st p)
  /\ _cache (log_get st p) !! p = None
  /\ readdir p st = (Raise e, log_get st p)
  /\ open p os.O_RDONLY st = (Raise e, log_get st p)
  /\ forall length offset, read p length offset st = (Raise e, log_get st p).
Proof.
  intros Hc Hs Hl Hp.
  pose proof (parse_listing_raises _ _ Hp) as He.
  assert (Hg : _get p st = (Raise e, log_get st p)).
  { rewrite (get_miss p st Hc). cbv zeta. rewrite Hs, Hl, Hp. reflexivity. }
  split; [exact He|]. split; [exact Hg|]. split; [exact Hc|].
  split; [unfold readdir; rewrite Hg; reflexivity|].
  split; [|intros; unfold read; rewrite Hg; reflexivity].
  unfold open. simpl. rewrite Hg.
  destruct He as [->|[->|[->| ->]]]; reflexivity.
Qed.

(** X14: on a path that is missing, either recorded so in the cache or not
    cached and answered with status 404, [_get] raises [FileNotFoundError]
    and the cache then records the path as missing; [open] turns this into
    [FuseOSError(ENOENT)], while [readdir] and [read] let the
    [FileNotFoundError] through. *)
Theorem missing_path_errors p st :
  _cache st !! p = Some VNone
  \/ (_cache st !! p = None
      /\ status_code (server (map _full_path (gets st)) (_full_path p)) = 404) ->
  exists st',
    _get p st = (Raise (FileNotFoundError p), st')
    /\ _cache st' !! p = Some VNone
    /\ open p os.O_RDONLY st = (Raise (FuseOSError errno.ENOENT), st')
    /\ readdir p st = (Raise (FileNotFoundError p), st')
    /\ forall length offset,
         read p length offset st = (Raise (FileNotFoundError p), st').
Proof.
  intros H.
  assert (Hg : exists st', _get p st = (Raise (FileNotFoundError p), st')
                           /\ _cache st' !! p = Some VNone).
  { destruct H as [Hc|[Hc Hs]].
    - exists st. rewrite (get_hit _ _ _ Hc). auto.
    - exists (set_cache (log_get st p) p VNone).
      rewrite (get_miss p st Hc). cbv zeta. rewrite Hs. simpl.
      split; [reflexivity | apply lookup_insert_eq]. }
  destruct Hg as (st' & Hg & Hc'). exists st'.
  split; [exact Hg|]. split; [exact Hc'|].
  split; [unfold open; simpl; rewrite Hg; reflexivity|].
  split; [unfold readdir; rewrite Hg; reflexivity|].
  intros. unfold read. rewrite Hg. reflexivity.
Qed.

End Http.

(* ===================================================================== *)
(** ** The statements on the sample tree *)
(* ===================================================================== *)

(** The sample page parses to the sample directory. *)
Lemma parse_sample_listing : _parse_listing sample_listing = Return sample_dict.
Proof. vm_compute. reflexivity. Qed.

(** The line of [a.txt], with the size field [10K]. *)
Lemma size_decoding_witness :
  parse_entry line_a_txt = Return ("a.txt", ("TXT", 10342, dt_a_txt))
  /\ exists rest mo,
       Re.re_match pattern line_a_txt = Some (rest, mo)
       /\ (Re.group mo "size" = "-" -> 10342 = 0)
       /\ (Re.group mo "size" <> "-" ->
           exists raw rank,
             PyFloat.of_string (Re.group mo "size") = Return raw
             /\ PyStr.list_index (Re.group mo "sizeunit") sizes 0 = Some rank
             /\ 0 <= rank <= 5
             /\ PyFloat.to_int
                  (PyFloat.mul (PyFloat.add PyFloat.point_one raw)
                               (PyFloat.of_int (1024 ^ rank)))
                = Return 10342
             /\ (forall n k,
                   PyFloat.parse_decimal (Re.group mo "size") 0 None false
                   = Some (n, k) ->
                   printed_size n k = true -> rank <= 4 ->
                   10342 = exact_size n k rank)).
Proof.
  split; [vm_compute; reflexivity|].
  apply (size_decoding line_a_txt "a.txt" "TXT" 10342 dt_a_txt).
  vm_compute. reflexivity.
Defined.

(** C1 fails as stated: the field [10K] decodes to 10342 and [1.5M] to
    1677721, where the claim has 10240 and 1572864 and its formula gives
    10240 and 1048576; and a directory line with a numeric size field does
    not report 0. *)
Lemma size_decoding_claim_fails :
  parse_entry line_a_txt = Return ("a.txt", ("TXT", 10342, dt_a_txt))
  /\ claimed_size "10" "K" = Some 10240
  /\ parse_entry line_b_bin = Return ("b.bin", ("   ", 1677721, dt_b_bin))
  /\ claimed_size "1.5" "M" = Some 1048576
  /\ parse_entry (sample_line "DIR" "d/" "12-Feb-2015 10:31" "4.0K")
     = Return ("d", ("DIR", 4198, dt_sub))
  /\ ~ (forall s u size,
          decode_size s u = Return size -> claimed_size s u = Some size).
Proof.
  repeat split; try (vm_compute; reflexivity).
  intros H. specialize (H "10" "K" 10342 ltac:(vm_compute; reflexivity)).
  vm_compute in H. discriminate.
Qed.

(** A cached listing at the root and cached content at [/a.txt]. *)
Lemma directory_file_conflicts_witness :
  open sample_root server_tree "/" 0 st_root
  = (Raise (FuseOSError errno.EISDIR), st_root)
  /\ open sample_root server_tree "/" 1 st_root
     = (Raise (FuseOSError errno.EROFS), st_root)
  /\ readdir sample_root server_tree "/a.txt" st_file
     = (Raise (FuseOSError errno.ENOTDIR), st_file).
Proof.
  destruct (directory_file_conflicts sample_root server_tree "/" st_root)
    as (H1 & H2 & _).
  destruct (directory_file_conflicts sample_root server_tree "/a.txt" st_file)
    as (_ & _ & H3).
  split; [|split].
  - apply (H1 sample_dict 0); reflexivity.
  - apply (H2 sample_dict 1); [reflexivity | vm_compute; discriminate].
  - apply (H3 "hello"). reflexivity.
Defined.

(** C2 fails as stated: [read] on a cached listing raises [TypeError], not
    [FuseOSError(EISDIR)], and [open] for writing on it raises
    [FuseOSError(EROFS)]. *)
Lemma directory_file_conflicts_claim_fails :
  _cache st_root !! "/" = Some (VOrderedDict sample_dict)
  /\ read sample_root server_tree "/" 10 0 st_root = (Raise TypeError, st_root)
  /\ open sample_root server_tree "/" 1 st_root
     = (Raise (FuseOSError errno.EROFS), st_root).
Proof. repeat split; vm_compute; reflexivity. Qed.


(** The root listing is cached; five operations follow. *)
Lemma populated_path_not_fetched_again_witness :
  _cache st_root !! "/" = Some (VOrderedDict sample_dict)
  /\ count_occ string_dec
       (gets (run_ops sample_root 65534 65534 3600 server_tree sample_ops st_root))
       "/"
     = count_occ string_dec (gets st_root) "/"
  /\ exists v',
       _cache (run_ops sample_root 65534 65534 3600 server_tree sample_ops st_root)
         !! "/" = Some v'
       /\ value_evolves (VOrderedDict sample_dict) v'
       /\ _get sample_root server_tree "/"
            (run_ops sample_root 65534 65534 3600 server_tree sample_ops st_root)
          = (Return v',
             run_ops sample_root 65534 65534 3600 server_tree sample_ops st_root).
Proof.
  split; [reflexivity|].
  apply (populated_path_not_fetched_again sample_root 65534 65534 3600
           server_tree sample_ops "/" st_root (VOrderedDict sample_dict)).
  reflexivity.
Defined.

(** C4 fails as stated: with a server that answers 500, two lookups of one
    path issue two GETs for it. *)
Lemma single_fetch_claim_fails :
  gets (run_ops sample_root 65534 65534 3600 server_500
          [OpReaddir "/x"; OpReaddir "/x"] st_empty)
  = ["/x"; "/x"].
Proof. vm_compute. reflexivity. Qed.

(** The names [sub], [a.txt] and [b.bin] of the sample page are distinct. *)
Lemma parse_listing_order_witness :
  Forall2 (fun line e => parse_entry line = Return e)
          (entry_lines (listing_lines sample_listing)) sample_dict
  /\ od_keys sample_dict
     = map (PyStr.rstrip_char "/"%char)
           (map anchor_text (entry_lines (listing_lines sample_listing)))
  /\ List.NoDup (map anchor_text (entry_lines (listing_lines sample_listing)))
  /\ List.NoDup (od_keys sample_dict).
Proof.
  apply (parse_listing_order sample_listing sample_dict).
  - vm_compute. reflexivity.
  - vm_compute. repeat constructor; simpl; intuition discriminate.
Defined.

(** C5 fails as stated: the parser accepts a page with the two anchors [a/]
    and [a], and returns a single entry. *)
Lemma parse_listing_order_claim_fails :
  _parse_listing colliding_listing = Return [("a", ("TXT", 7, dt_a_txt))]
  /\ map anchor_text (entry_lines (listing_lines colliding_listing))
     = ["a/"; "a"].
Proof. vm_compute. split; reflexivity. Qed.

(** One hour east of Greenwich, on a fresh state. *)
Lemma getattr_root_witness :
  -86400 < 3600 < 86400
  /\ getattr sample_root 65534 65534 3600 server_500 "/" st_empty
     = (Return {| st_atime := 0; st_ctime := 0; st_gid := 65534;
                  st_mode := Z.lor 365 stat.S_IFDIR; st_mtime := 0;
                  st_nlink := 2; st_size := 0; st_uid := 65534 |},
        st_empty).
Proof.
  split; [lia|].
  apply (getattr_root sample_root 65534 65534 3600 server_500 st_empty). lia.
Defined.

(** With the root listing cached: a write mode, the root, a missing name,
    execute access on a file, and read access on a file. *)
Lemma access_outcomes_witness :
  access sample_root 3600 server_tree "/a.txt" 2 st_root
  = (Raise (FuseOSError errno.EROFS), st_root)
  /\ access sample_root 3600 server_tree "/" 5 st_root = (Return tt, st_root)
  /\ access sample_root 3600 server_tree "/nope" 4 st_root
     = (Raise (FuseOSError errno.ENOENT), st_root)
  /\ access sample_root 3600 server_tree "/a.txt" 1 st_root
     = (Raise (FuseOSError errno.EACCES), st_root)
  /\ access sample_root 3600 server_tree "/a.txt" 4 st_root
     = (Return tt, st_root).
Proof.
  destruct (access_outcomes sample_root 3600 server_tree "/a.txt" 2 st_root)
    as (H1 & _ & _).
  destruct (access_outcomes sample_root 3600 server_tree "/" 5 st_root)
    as (_ & H2 & _).
  destruct (access_outcomes sample_root 3600 server_tree "/nope" 4 st_root)
    as (_ & _ & H3).
  destruct (access_outcomes sample_root 3600 server_tree "/a.txt" 1 st_root)
    as (_ & _ & H4).
  destruct (access_outcomes sample_root 3600 server_tree "/a.txt" 4 st_root)
    as (_ & _ & H5).
  split; [|split; [|split; [|split]]].
  - apply H1. vm_compute. discriminate.
  - apply H2. reflexivity.
  - destruct (H3 eq_refl ltac:(discriminate) st_root) as (_ & _ & H & _).
    apply (H sample_dict); vm_compute; reflexivity.
  - destruct (H4 eq_refl ltac:(discriminate) st_root) as (_ & _ & _ & H & _).
    apply (H sample_dict "TXT" 10342 dt_a_txt);
      [vm_compute; reflexivity | reflexivity
       | vm_compute; discriminate | discriminate].
  - destruct (H5 eq_refl ltac:(discriminate) st_root) as (_ & _ & _ & _ & H).
    apply (H sample_dict "TXT" 10342 dt_a_txt);
      [vm_compute; reflexivity | reflexivity | left; reflexivity].
Defined.

(** C7 fails as stated: a mode that asks for write access makes [access]
    raise [FuseOSError(EROFS)], the read-only error, and not the
    permission error [FuseOSError(EACCES)]. *)
Lemma access_write_claim_fails :
  access sample_root 3600 server_tree "/a.txt" os.W_OK st_root
  = (Raise (FuseOSError errno.EROFS), st_root)
  /\ errno.EROFS <> errno.EACCES.
Proof. split; [vm_compute; reflexivity | discriminate]. Qed.

(** A server that answers 500, on a fresh state. *)
Lemma transport_failure_not_cached_witness :
  _get sample_root server_500 "/x" st_empty
  = (Raise (FuseOSError errno.EIO), log_get st_empty "/x")
  /\ _cache (log_get st_empty "/x") = _cache st_empty
  /\ readdir sample_root server_500 "/x" st_empty
     = (Raise (FuseOSError errno.EIO), log_get st_empty "/x")
  /\ open sample_root server_500 "/x" os.O_RDONLY st_empty
     = (Raise (FuseOSError errno.EIO), log_get st_empty "/x")
  /\ (forall length offset,
        read sample_root server_500 "/x" length offset st_empty
        = (Raise (FuseOSError errno.EIO), log_get st_empty "/x"))
  /\ exists l, gets (snd (_get sample_root server_500 "/x" (log_get st_empty "/x")))
               = (gets (log_get st_empty "/x") ++ "/x" :: l)%list.
Proof.
  apply (transport_failure_not_cached sample_root server_500 "/x" st_empty).
  - reflexivity.
  - vm_compute. discriminate.
  - vm_compute. discriminate.
Defined.

(** The path [/a.txt] on a fresh state, and the root of a server whose root
    is a plain file. *)
Lemma get_terminates_witness :
  (os_path.dirname "/a.txt" = "/a.txt"
   \/ (String.length (os_path.dirname "/a.txt") < String.length "/a.txt")%nat)
  /\ (exists r st',
     r <> OutOfFuel
     /\ forall fuel, (String.length "/a.txt" + 2 <= fuel)%nat ->
                     _get_fuel sample_root server_tree fuel "/a.txt" st_empty
                     = (r, st'))
  /\ _get sample_root server_rootfile "/" st_empty
     = (Raise TypeError, set_cache (log_get st_empty "/") "/" (VBytes "hello")).
Proof.
  split; [|split].
  - exact (proj1 (get_terminates sample_root server_tree "/a.txt" st_empty)).
  - exact (proj1 (proj2 (get_terminates sample_root server_tree "/a.txt" st_empty))).
  - exact (proj2 (proj2 (get_terminates sample_root server_rootfile "/" st_empty))
             eq_refl eq_refl (mk_response 200 "hello" "hello")
             eq_refl eq_refl eq_refl).
Defined.

(** C9 fails as stated: the parent of the root is the root itself, not a
    shorter path, and a root whose body is not a listing is stored as a
    file. *)
Lemma parent_shorter_claim_fails :
  os_path.dirname "/" = "/"
  /\ ~ (String.length (os_path.dirname "/") < String.length "/")%nat
  /\ fst (_get sample_root server_rootfile "/" st_empty) = Raise TypeError
  /\ _cache (snd (_get sample_root server_rootfile "/" st_empty)) !! "/"
     = Some (VBytes "hello").
Proof.
  split; [reflexivity|]. split; [vm_compute; lia|].
  split; vm_compute; reflexivity.
Qed.

(** The file [/a.txt] is cached, and [/a.txt/b] is looked up. *)
Lemma child_of_file_not_found_witness :
  getattr sample_root 65534 65534 3600 server_tree "/a.txt/b" st_file
  = (Raise (FuseOSError errno.ENOENT), st_file)
  /\ access sample_root 3600 server_tree "/a.txt/b" 4 st_file
     = (Raise (FuseOSError errno.ENOENT), st_file)
  /\ access sample_root 3600 server_tree "/a.txt/b" 2 st_file
     = (Raise (FuseOSError errno.EROFS), st_file).
Proof.
  destruct (child_of_file_not_found sample_root 65534 65534 3600 server_tree
              "/a.txt/b" "hello" st_file ltac:(discriminate) eq_refl)
    as (H1 & H2 & H3).
  split; [exact H1|]. split.
  - apply H2. reflexivity.
  - apply H3. vm_compute. discriminate.
Defined.

(** C10 fails as stated: under a cached file, [access] with a mode that asks
    for write access raises [FuseOSError(EROFS)], not
    [FuseOSError(ENOENT)]. *)
Lemma child_of_file_claim_fails :
  _cache st_file !! os_path.dirname "/a.txt/b" = Some (VBytes "hello")
  /\ access sample_root 3600 server_tree "/a.txt/b" os.W_OK st_file
     = (Raise (FuseOSError errno.EROFS), st_file)
  /\ errno.EROFS <> errno.ENOENT.
Proof. split; [reflexivity|]. split; [vm_compute; reflexivity | discriminate]. Qed.

(* ===================================================================== *)
(** ** The further statements on the sample tree *)
(* ===================================================================== *)

(** The lookup of [/a.txt] returns its content and the lookup of [/nope]
    raises, on a fresh state. *)
Lemma get_result_recorded_witness :
  (_cache (snd (_get sample_root server_tree "/a.txt" st_empty)) !! "/a.txt"
   = Some (VBytes "hello")
   /\ _get sample_root server_tree "/a.txt"
        (snd (_get sample_root server_tree "/a.txt" st_empty))
      = (Return (VBytes "hello"),
         snd (_get sample_root server_tree "/a.txt" st_empty)))
  /\ (_cache (snd (_get sample_root server_tree "/nope" st_empty)) !! "/nope"
      = Some VNone
      /\ _get sample_root server_tree "/nope"
           (snd (_get sample_root server_tree "/nope" st_empty))
         = (Raise (FileNotFoundError "/nope"),
            snd (_get sample_root server_tree "/nope" st_empty))).
Proof.
  split.
  - destruct (get_result_recorded sample_root server_tree "/a.txt" st_empty
                (Return (VBytes "hello"))
                (snd (_get sample_root server_tree "/a.txt" st_empty))
                ltac:(vm_compute; reflexivity)) as [H _].
    destruct (H _ eq_refl) as (_ & H1 & H2). split; assumption.
  - destruct (get_result_recorded sample_root server_tree "/nope" st_empty
                (Raise (FileNotFoundError "/nope"))
                (snd (_get sample_root server_tree "/nope" st_empty))
                ltac:(vm_compute; reflexivity)) as [_ H].
    destruct (H _ eq_refl) as (_ & H1 & H2). split; assumption.
Defined.

(** The lookup of [/a.txt] on a fresh state requests [/a.txt] and [/]. *)
Lemma get_requests_bounded_witness :
  gets (snd (_get sample_root server_tree "/a.txt" st_empty)) = ["/a.txt"; "/"]
  /\ exists l,
       gets (snd (_get sample_root server_tree "/a.txt" st_empty))
       = (gets st_empty ++ l)%list
       /\ List.NoDup l
       /\ (List.length l <= String.length "/a.txt" + 1)%nat
       /\ Forall (fun q => In q (lineage (String.length "/a.txt" + 2) "/a.txt")
                           /\ (String.length q <= String.length "/a.txt")%nat
                           /\ _cache st_empty !! q = None) l.
Proof.
  split; [vm_compute; reflexivity|].
  apply (get_requests_bounded sample_root server_tree "/a.txt" st_empty
           (Return (VBytes "hello"))
           (snd (_get sample_root server_tree "/a.txt" st_empty))).
  vm_compute. reflexivity.
Defined.

(** [getattr] and [access] on [/a.txt], on a fresh state, request [/]. *)
Lemma attributes_without_fetching_the_path_witness :
  gets (snd (getattr sample_root 65534 65534 3600 server_tree "/a.txt" st_empty))
  = ["/"]
  /\ (exists l,
        gets (snd (getattr sample_root 65534 65534 3600 server_tree
                     "/a.txt" st_empty))
        = (gets st_empty ++ l)%list
        /\ Forall (fun q => String.length q < String.length "/a.txt")%nat l)
  /\ (forall mode,
        exists l,
          gets (snd (access sample_root 3600 server_tree "/a.txt" mode st_empty))
          = (gets st_empty ++ l)%list
          /\ Forall (fun q => String.length q < String.length "/a.txt")%nat l).
Proof.
  split; [vm_compute; reflexivity|].
  apply (attributes_without_fetching_the_path sample_root 65534 65534 3600
           server_tree "/a.txt" st_empty).
  right. vm_compute. discriminate.
Defined.

(** Three bytes of [hello] from offset 1. *)
Lemma read_returns_slice_witness :
  read sample_root server_tree "/a.txt" 3 1 st_file = (Return "ell", st_file)
  /\ read sample_root server_tree "/a.txt" 3 4 st_file = (Return "o", st_file)
  /\ read sample_root server_tree "/a.txt" 3 5 st_file
     = (Return EmptyString, st_file)
  /\ read sample_root server_tree "/a.txt" 5 0 st_file = (Return "hello", st_file).
Proof.
  destruct (read_returns_slice sample_root server_tree "/a.txt" st_file "hello"
              3 1 eq_refl ltac:(lia) ltac:(lia)) as (H1 & _ & _ & H4).
  destruct (read_returns_slice sample_root server_tree "/a.txt" st_file "hello"
              3 4 eq_refl ltac:(lia) ltac:(lia)) as (H2 & _).
  destruct (read_returns_slice sample_root server_tree "/a.txt" st_file "hello"
              3 5 eq_refl ltac:(lia) ltac:(lia)) as (_ & _ & H3 & _).
  split; [exact H1|]. split; [exact H2|]. split; [|exact H4].
  apply H3. vm_compute. discriminate.
Defined.

(** [hello] read as two bytes and then three. *)
Lemma read_consecutive_witness :
  exists data1 data2,
    read sample_root server_tree "/a.txt" 2 0 st_file = (Return data1, st_file)
    /\ read sample_root server_tree "/a.txt" 3 (0 + 2) st_file
       = (Return data2, st_file)
    /\ read sample_root server_tree "/a.txt" (2 + 3) 0 st_file
       = (Return (data1 +:+ data2), st_file).
Proof.
  apply (read_consecutive sample_root server_tree "/a.txt" st_file "hello" 0 2 3);
    [reflexivity | lia | lia | lia].
Defined.

(** The first [open] of [/a.txt] returns handle 1. *)
Lemma handles_strictly_increase_witness :
  open sample_root server_tree "/a.txt" 0 st_file = (Return 1, set_fd st_file 1)
  /\ forall cs p' flags' h' st2,
       open sample_root server_tree p' flags'
            (run_calls sample_root 65534 65534 3600 server_tree cs
               (set_fd st_file 1))
       = (Return h', st2) -> 1 < h'.
Proof.
  split; [vm_compute; reflexivity|].
  destruct (handles_strictly_increase sample_root 65534 65534 3600 server_tree
              "/a.txt" 0 st_file 1 (set_fd st_file 1)
              ltac:(vm_compute; reflexivity)) as (_ & _ & _ & _ & H).
  exact H.
Defined.

(** The cached file [/a.txt] after reads, writes, a truncation, an unlink
    and a rename. *)
Lemma content_never_changes_witness :
  _cache (run_calls sample_root 65534 65534 3600 server_tree sample_calls st_file)
    !! "/a.txt" = Some (VBytes "hello")
  /\ forall length offset,
       read sample_root server_tree "/a.txt" length offset
            (run_calls sample_root 65534 65534 3600 server_tree sample_calls
               st_file)
       = (Return (PyStr.slice "hello" offset (offset + length)),
          run_calls sample_root 65534 65534 3600 server_tree sample_calls st_file).
Proof.
  destruct (content_never_changes sample_root 65534 65534 3600 server_tree
              sample_calls "/a.txt" st_file) as (H & _ & _).
  apply (H "hello"). reflexivity.
Defined.

(** The page with the anchors [a/] and [a]: the later line is kept. *)
Lemma parse_listing_last_wins_witness :
  _parse_listing colliding_listing = Return [("a", ("TXT", 7, dt_a_txt))]
  /\ exists es,
       Forall2 (fun line e => parse_entry line = Return e)
               (entry_lines (listing_lines colliding_listing)) es
       /\ [("a", ("TXT", 7, dt_a_txt))] = od_set_all es []
       /\ (forall n, od_get [("a", ("TXT", 7, dt_a_txt))] n = od_get (rev es) n).
Proof.
  split; [vm_compute; reflexivity|].
  destruct (parse_listing_last_wins colliding_listing
              [("a", ("TXT", 7, dt_a_txt))] ltac:(vm_compute; reflexivity))
    as (es & H1 & H2 & H3 & _).
  exists es. split; [exact H1|]. split; [exact H2 | exact H3].
Defined.

Lemma sizes_nonneg_empty : sizes_nonneg st_empty.
Proof. intros q d H. simpl in H. rewrite lookup_empty in H. discriminate. Qed.

(** [getattr] on [/a.txt] after the sample calls, from a fresh state. *)
Lemma attributes_read_only_and_sized_witness :
  fst (getattr sample_root 65534 65534 3600 server_tree "/a.txt"
         (run_calls sample_root 65534 65534 3600 server_tree sample_calls st_empty))
  = Return {| st_atime := 1423814700; st_ctime := 1423814700; st_gid := 65534;
              st_mode := 33060; st_mtime := 1423814700; st_nlink := 1;
              st_size := 5; st_uid := 65534 |}
  /\ 0 <= 5.
Proof.
  split; [vm_compute; reflexivity|].
  destruct (attributes_read_only_and_sized sample_root 65534 65534 3600 server_tree
              sample_calls "/a.txt" st_empty
              {| st_atime := 1423814700; st_ctime := 1423814700; st_gid := 65534;
                 st_mode := 33060; st_mtime := 1423814700; st_nlink := 1;
                 st_size := 5; st_uid := 65534 |}
              (snd (getattr sample_root 65534 65534 3600 server_tree "/a.txt"
                      (run_calls sample_root 65534 65534 3600 server_tree
                         sample_calls st_empty)))
              sizes_nonneg_empty ltac:(vm_compute; reflexivity)) as [H _].
  exact H.
Defined.



(** A page without a [<pre>] block at the root. *)
Lemma malformed_listing_not_cached_witness :
  _get sample_root server_malformed "/" st_empty
  = (Raise AssertionError, log_get st_empty "/")
  /\ readdir sample_root server_malformed "/" st_empty
     = (Raise AssertionError, log_get st_empty "/").
Proof.
  destruct (malformed_listing_not_cached sample_root server_malformed "/"
              st_empty AssertionError eq_refl eq_refl
              ltac:(vm_compute; reflexivity) ltac:(vm_compute; reflexivity))
    as (_ & H1 & _ & H2 & _).
  split; assumption.
Defined.

(** The path [/nope], which the sample server answers with 404. *)
Lemma missing_path_errors_witness :
  exists st',
    _get sample_root server_tree "/nope" st_empty
    = (Raise (FileNotFoundError "/nope"), st')
    /\ _cache st' !! "/nope" = Some VNone
    /\ open sample_root server_tree "/nope" os.O_RDONLY st_empty
       = (Raise (FuseOSError errno.ENOENT), st')
    /\ readdir sample_root server_tree "/nope" st_empty
       = (Raise (FileNotFoundError "/nope"), st')
    /\ forall length offset,
         read sample_root server_tree "/nope" length offset st_empty
         = (Raise (FileNotFoundError "/nope"), st').
Proof.
  apply (missing_path_errors sample_root server_tree "/nope" st_empty).
  right. split; reflexivity.
Defined.
